(** * isocubic: stack arithmetic, collaboration helpers and FFT uniform marshalling

    A shallow embedding of the pure helper functions of the isocubic editor:

    - [types/cube.ts] and [types/stack.ts]: cube descriptors, stack layers,
      [createStackLayer], [createCubeStack], [createGradientStack],
      [getLayerYPosition], [getStackCenterOffset], [getLayerBlendFactor];
    - [types/collaboration.ts]: sessions, collaborative actions, the random
      generators, the two type guards and session (de)serialisation;
    - [shaders/energy-cube.ts]: [defaultUniforms], [channelToUniforms],
      [createEnergyUniforms] and [createSimpleEnergyConfig].

    TypeScript [number] is an IEEE-754 binary64 value.  The functions are
    embedded once, over the interface [Number] of the arithmetic they use, and
    that interface has two instances: [binary64_number] (Rocq's primitive
    floats, the arithmetic the program runs on) and [exact_number] (rationals,
    the arithmetic the formulas are written in).  A theorem stated over
    [Number] holds for both. *)

From Stdlib Require Import List String Ascii Bool Arith ZArith QArith Qround Lia Lqa.
From Stdlib Require Import DecimalString Floats.
From Stdlib Require DecimalPos DecimalZ.
Import ListNotations.

Close Scope Q_scope.
Open Scope string_scope.
Open Scope list_scope.

(** ** JavaScript values *)

(** The arithmetic of [number] that the sources use: literals, [+ - * /],
    [<] and [Math.floor] (read as an integer; [None] for NaN and the
    infinities, which are no integer). *)
Class Number (num : Type) : Type := {
  of_Q : Q -> num;
  add : num -> num -> num;
  sub : num -> num -> num;
  mul : num -> num -> num;
  div : num -> num -> num;
  ltb : num -> num -> bool;
  Math_floor : num -> option Z
}.

Declare Scope js_scope.
Delimit Scope js_scope with js.
Infix "+" := add : js_scope.
Infix "-" := sub : js_scope.
Infix "*" := mul : js_scope.
Infix "/" := div : js_scope.
Infix "<?" := ltb : js_scope.

(** A non-negative integer (an array length, a loop counter) as a [number]. *)
Definition of_nat {num : Type} {N : Number num} (n : nat) : num :=
  of_Q (inject_Z (Z.of_nat n)).

(** The one law of the arithmetic that the proofs rely on: dividing by the
    literal [1] changes nothing.  Both instances below have it
    ([exact_lawful], [binary64_lawful]). *)
Class LawfulNumber (num : Type) {N : Number num} : Prop := {
  div_one : forall x : num, (x / of_Q 1)%js = x
}.

(** [x ?? d]: the nullish coalescing operator on an optional field. *)
Definition nullish {A : Type} (x : option A) (d : A) : A :=
  match x with
  | Some v => v
  | None => d
  end.

Notation "x ?? d" := (nullish x d) (at level 45, left associativity).

(** [x?.f]: optional chaining into an optional field of an optional object. *)
Definition chain {A B : Type} (x : option A) (f : A -> option B) : option B :=
  match x with
  | Some v => f v
  | None => None
  end.

(** [arr.map((x, index) => f x index)]. *)
Fixpoint Array_map_from {A B : Type} (f : A -> nat -> B) (index : nat) (arr : list A) : list B :=
  match arr with
  | [] => []
  | x :: rest => f x index :: Array_map_from f (S index) rest
  end.

Definition Array_map {A B : Type} (f : A -> nat -> B) (arr : list A) : list B :=
  Array_map_from f 0 arr.

(** [arr[i]] for a [number] index that came out of [Math.floor]:
    [undefined] ([None]) unless the index is an integer within the array. *)
Definition Array_get {A : Type} (arr : list A) (i : option Z) : option A :=
  match i with
  | Some z => if (z <? 0)%Z then None else nth_error arr (Z.to_nat z)
  | None => None
  end.

(** *** Exact arithmetic

    Rationals, with [x / 0 = 0] where binary64 has an infinity or NaN: a
    fact proved on this instance about a quotient carries the hypothesis that
    the divisor is not 0. *)

Definition Q_ltb (x y : Q) : bool :=
  match (x ?= y)%Q with
  | Lt => true
  | _ => false
  end.

#[export] Instance exact_number : Number Q := {|
  of_Q := fun q => q;
  add := Qplus;
  sub := Qminus;
  mul := Qmult;
  div := Qdiv;
  ltb := Q_ltb;
  Math_floor := fun x => Some (Qfloor x)
|}.

(** *** IEEE-754 binary64 *)

Definition float_of_Z (z : Z) : float :=
  match z with
  | Z0 => PrimFloat.zero
  | Zpos _ => PrimFloat.of_uint63 (Uint63.of_Z z)
  | Zneg p => PrimFloat.opp (PrimFloat.of_uint63 (Uint63.of_Z (Zpos p)))
  end.

(** A decimal literal [n/d] denotes the binary64 value nearest to it, which
    is what the correctly rounded quotient of the two integers is (both are
    below [2^53] for every literal of the sources). *)
Definition float_of_Q (q : Q) : float :=
  PrimFloat.div (float_of_Z (Qnum q)) (float_of_Z (Zpos (Qden q))).

Definition float_floor (x : float) : option Z :=
  match Prim2SF x with
  | S754_zero _ => Some 0%Z
  | S754_finite s m e =>
      let sm := if s then Zneg m else Zpos m in
      Some (if (0 <=? e)%Z then sm * 2 ^ e else sm / 2 ^ (- e))%Z
  | S754_infinity _ => None
  | S754_nan => None
  end.

#[export] Instance binary64_number : Number float := {|
  of_Q := float_of_Q;
  add := PrimFloat.add;
  sub := PrimFloat.sub;
  mul := PrimFloat.mul;
  div := PrimFloat.div;
  ltb := PrimFloat.ltb;
  Math_floor := float_floor
|}.

(** ** types/cube.ts *)

Inductive GradientAxis := axis_x | axis_y | axis_z | axis_radial.
Inductive NoiseType := perlin | worley | crackle.
Inductive MaterialType := stone | wood | metal | glass | organic | crystal | liquid.
Inductive BreakPattern := crumble | shatter | splinter | melt | dissolve.
Inductive BoundaryMode := boundary_none | boundary_smooth | boundary_hard.
Inductive FFTSize := fft_8 | fft_16 | fft_32.

Record CubeMeta := {
  meta_name : option string;
  meta_tags : option (list string);
  meta_author : option string;
  meta_created : option string;
  meta_modified : option string
}.

Section CubeTypes.
Context {num : Type}.

Definition Color3 : Type := (num * num * num)%type.
Definition ColorShift3 : Type := (num * num * num)%type.

Record CubeBase := {
  base_color : Color3;
  base_roughness : option num;
  base_transparency : option num
}.

Record CubeGradient := {
  gradient_axis : GradientAxis;
  gradient_factor : num;
  gradient_color_shift : ColorShift3
}.

Record CubeNoise := {
  noise_type : option NoiseType;
  noise_scale : option num;
  noise_octaves : option num;
  noise_persistence : option num;
  noise_mask : option string
}.

Record CubePhysics := {
  physics_material : option MaterialType;
  physics_density : option num;
  physics_break_pattern : option BreakPattern
}.

Record FFTCubePhysics := {
  fft_physics_material : option MaterialType;
  fft_physics_density : option num;
  fft_physics_break_pattern : option BreakPattern;
  fft_physics_coherence_loss : option num;
  fft_physics_fracture_threshold : option num
}.

Record FFTCoefficient := {
  amplitude : num;
  phase : num;
  freqX : num;
  freqY : num;
  freqZ : num
}.

Record FFTChannel := {
  dcAmplitude : num;
  dcPhase : num;
  coefficients : list FFTCoefficient
}.

Record FFTChannels := {
  channels_R : option FFTChannel;
  channels_G : option FFTChannel;
  channels_B : option FFTChannel;
  channels_A : option FFTChannel
}.

Record CubeBoundary := {
  boundary_mode : option BoundaryMode;
  boundary_neighbor_influence : option num
}.

Record FFTCubeConfig := {
  fft_id : string;
  fft_prompt : option string;
  fft_is_magical : bool;
  fft_fft_size : FFTSize;
  fft_energy_capacity : num;
  fft_current_energy : option num;
  fft_channels : FFTChannels;
  fft_physics : option FFTCubePhysics;
  fft_meta : option CubeMeta;
  fft_boundary : option CubeBoundary
}.

Record SpectralCube := {
  cube_id : string;
  cube_prompt : option string;
  cube_base : CubeBase;
  cube_gradients : option (list CubeGradient);
  cube_noise : option CubeNoise;
  cube_physics : option CubePhysics;
  cube_meta : option CubeMeta;
  cube_boundary : option CubeBoundary
}.

End CubeTypes.

Arguments CubeBase : clear implicits.
Arguments CubeGradient : clear implicits.
Arguments CubeNoise : clear implicits.
Arguments CubePhysics : clear implicits.
Arguments FFTCubePhysics : clear implicits.
Arguments FFTCoefficient : clear implicits.
Arguments FFTChannel : clear implicits.
Arguments FFTChannels : clear implicits.
Arguments CubeBoundary : clear implicits.
Arguments FFTCubeConfig : clear implicits.
Arguments SpectralCube : clear implicits.
Arguments Color3 : clear implicits.
Arguments ColorShift3 : clear implicits.

(** ** types/stack.ts *)

Inductive StackTransitionType := transition_blend | transition_hard | transition_gradient | transition_noise.
Inductive StackLayerPosition := bottom | middle | top | single.
Inductive Easing := linear | smooth | ease_in | ease_out.

Record StackMeta := {
  stack_meta_name : option string;
  stack_meta_tags : option (list string);
  stack_meta_author : option string;
  stack_meta_created : option string;
  stack_meta_modified : option string
}.

Section StackTypes.
Context {num : Type}.

Record StackTransition := {
  transition_type : StackTransitionType;
  transition_blendHeight : option num;
  transition_easing : option Easing;
  transition_blendNoise : option bool;
  transition_blendGradients : option bool
}.

Record StackLayer := {
  layer_id : string;
  layer_name : option string;
  layer_position : StackLayerPosition;
  layer_cubeConfig : SpectralCube num;
  layer_height : option num;
  layer_transitionToNext : option StackTransition
}.

Record StackPhysics := {
  stack_physics_material : option MaterialType;
  stack_physics_density : option num;
  stack_physics_break_pattern : option BreakPattern;
  isStable : option bool;
  totalWeight : option num;
  weightDistribution : option num;
  structuralIntegrity : option num
}.

Record CubeStackConfig := {
  stack_id : string;
  stack_prompt : option string;
  stack_layers : list StackLayer;
  totalHeight : num;
  physics : option StackPhysics;
  boundaryMode : option BoundaryMode;
  neighborInfluence : option num;
  meta : option StackMeta
}.

End StackTypes.

Arguments StackTransition : clear implicits.
Arguments StackLayer : clear implicits.
Arguments StackPhysics : clear implicits.
Arguments CubeStackConfig : clear implicits.

Section Stack.
Context {num : Type} {N : Number num}.

Definition DEFAULT_STACK_TRANSITION : StackTransition num := {|
  transition_type := transition_blend;
  transition_blendHeight := Some (of_Q 0.2);
  transition_easing := Some smooth;
  transition_blendNoise := Some true;
  transition_blendGradients := Some true
|}.

Definition DEFAULT_STACK_PHYSICS : StackPhysics num := {|
  stack_physics_material := Some stone;
  stack_physics_density := Some (of_Q 2.5);
  stack_physics_break_pattern := Some crumble;
  isStable := Some true;
  totalWeight := Some (of_Q 0);
  weightDistribution := Some (of_Q 0.5);
  structuralIntegrity := Some (of_Q 1)
|}.

(** [position !== 'top' && position !== 'single']. *)
Definition has_layer_above (position : StackLayerPosition) : bool :=
  match position with
  | top | single => false
  | bottom | middle => true
  end.

(** The optional parameters [position = 'middle'] and [height = 1] are
    options; the returned object has no [name]. *)
Definition createStackLayer (id : string) (cubeConfig : SpectralCube num)
    (position : option StackLayerPosition) (height : option num) : StackLayer num :=
  let position := position ?? middle in
  let height := height ?? of_Q 1 in
  {| layer_id := id;
     layer_name := None;
     layer_position := position;
     layer_cubeConfig := cubeConfig;
     layer_height := Some height;
     layer_transitionToNext :=
       if has_layer_above position then Some DEFAULT_STACK_TRANSITION else None |}.

(** The callback of [layers.map] in [createCubeStack]: the spread [...layer]
    with [position] and [transitionToNext] overwritten.  The callback runs on
    a layer of [layers], so [layers.length - 1] is no less than 0. *)
Definition positionLayer (layers : list (StackLayer num)) (layer : StackLayer num) (index : nat)
    : StackLayer num :=
  let position :=
    if Nat.eqb (List.length layers) 1 then single
    else if Nat.eqb index 0 then bottom
    else if Nat.eqb index (List.length layers - 1) then top
    else middle in
  {| layer_id := layer_id layer;
     layer_name := layer_name layer;
     layer_position := position;
     layer_cubeConfig := layer_cubeConfig layer;
     layer_height := layer_height layer;
     layer_transitionToNext :=
       if has_layer_above position
       then Some (layer_transitionToNext layer ?? DEFAULT_STACK_TRANSITION)
       else None |}.

(** [created] is the value of [new Date().toISOString()] at the call. *)
Definition createCubeStack (id : string) (layers : list (StackLayer num))
    (prompt : option string) (created : string) : CubeStackConfig num :=
  let positionedLayers := Array_map (positionLayer layers) layers in
  let totalHeight :=
    fold_left (fun sum layer => (sum + (layer_height layer ?? of_Q 1))%js)
              positionedLayers (of_Q 0) in
  let totalWeight :=
    fold_left (fun sum layer =>
                 let density :=
                   chain (cube_physics (layer_cubeConfig layer)) physics_density ?? of_Q 2.5 in
                 let height := layer_height layer ?? of_Q 1 in
                 (sum + density * height)%js)
              positionedLayers (of_Q 0) in
  {| stack_id := id;
     stack_prompt := prompt;
     stack_layers := positionedLayers;
     totalHeight := totalHeight;
     physics := Some {|
       stack_physics_material := stack_physics_material DEFAULT_STACK_PHYSICS;
       stack_physics_density := stack_physics_density DEFAULT_STACK_PHYSICS;
       stack_physics_break_pattern := stack_physics_break_pattern DEFAULT_STACK_PHYSICS;
       isStable := isStable DEFAULT_STACK_PHYSICS;
       totalWeight := Some totalWeight;
       weightDistribution := weightDistribution DEFAULT_STACK_PHYSICS;
       structuralIntegrity := structuralIntegrity DEFAULT_STACK_PHYSICS |};
     boundaryMode := Some boundary_smooth;
     neighborInfluence := Some (of_Q 0.5);
     meta := Some {|
       stack_meta_name := None;
       stack_meta_tags := None;
       stack_meta_author := None;
       stack_meta_created := Some created;
       stack_meta_modified := None |} |}.

(** [None] is the [TypeError] of reading [transitionToNext] off
    [stack.layers[layerIndex]] when that is [undefined]. *)
Definition getLayerBlendFactor (stack : CubeStackConfig num) (layerIndex : nat) (localY : num)
    : option num :=
  match nth_error (stack_layers stack) layerIndex with
  | None => None
  | Some layer =>
      match layer_transitionToNext layer with
      | None => Some (of_Q 0)
      | Some transition =>
          if (Z.of_nat (List.length (stack_layers stack)) - 1 <=? Z.of_nat layerIndex)%Z
          then Some (of_Q 0)
          else
            let blendHeight := transition_blendHeight transition ?? of_Q 0.2 in
            let layerHeight := layer_height layer ?? of_Q 1 in
            let transitionStart := (of_Q 1 - blendHeight)%js in
            let normalizedY := (localY / layerHeight)%js in
            if (normalizedY <? transitionStart)%js
            then Some (of_Q 0)
            else
              let transitionProgress :=
                ((normalizedY - transitionStart) / blendHeight)%js in
              Some match transition_easing transition with
                   | Some linear => transitionProgress
                   | Some smooth =>
                       (transitionProgress * transitionProgress
                        * (of_Q 3 - of_Q 2 * transitionProgress))%js
                   | Some ease_in => (transitionProgress * transitionProgress)%js
                   | Some ease_out =>
                       (of_Q 1 - (of_Q 1 - transitionProgress) * (of_Q 1 - transitionProgress))%js
                   | None => transitionProgress
                   end
      end
  end.

End Stack.

(** ** JavaScript [Map] with string keys

    A [Map] keeps its entries in insertion order and holds a key once.
    [Map_entries] is what [Array.from(m.entries())] returns;
    [Map_from] is [new Map(entries)], which [set]s the entries one by one. *)

Section JSMap.
Context {V : Type}.

Fixpoint has_key (k : string) (es : list (string * V)) : bool :=
  match es with
  | [] => false
  | (k', _) :: rest => String.eqb k' k || has_key k rest
  end.

Fixpoint unique_keys (es : list (string * V)) : bool :=
  match es with
  | [] => true
  | (k, _) :: rest => negb (has_key k rest) && unique_keys rest
  end.

(** [set] overwrites the value of a key already there, in place, and appends
    a new key at the end. *)
Fixpoint set_entry (es : list (string * V)) (k : string) (v : V) : list (string * V) :=
  match es with
  | [] => [(k, v)]
  | (k', v') :: rest =>
      if String.eqb k' k then (k', v) :: rest else (k', v') :: set_entry rest k v
  end.

Lemma has_key_set_entry (es : list (string * V)) (k k0 : string) (v : V) :
  has_key k0 (set_entry es k v) = has_key k0 es || String.eqb k k0.
Proof.
  induction es as [|[k' v'] rest IH]; simpl.
  - now rewrite orb_false_r.
  - destruct (String.eqb k' k) eqn:E; simpl.
    + apply String.eqb_eq in E. subst k'.
      destruct (String.eqb k k0); simpl; [reflexivity|].
      now rewrite orb_false_r.
    + rewrite IH. now rewrite orb_assoc.
Qed.

Lemma set_entry_unique (es : list (string * V)) (k : string) (v : V) :
  unique_keys es = true -> unique_keys (set_entry es k v) = true.
Proof.
  induction es as [|[k' v'] rest IH]; simpl; intros H.
  - reflexivity.
  - apply andb_true_iff in H. destruct H as [Hk Hrest].
    destruct (String.eqb k' k) eqn:E; simpl.
    + now rewrite Hk, Hrest.
    + rewrite has_key_set_entry, IH by assumption.
      rewrite String.eqb_sym, E, orb_false_r. now rewrite Hk.
Qed.

Record JSMap : Type := {
  Map_entries : list (string * V);
  Map_unique : unique_keys Map_entries = true
}.

Definition Map_empty : JSMap :=
  {| Map_entries := []; Map_unique := eq_refl |}.

Definition Map_set (m : JSMap) (k : string) (v : V) : JSMap :=
  {| Map_entries := set_entry (Map_entries m) k v;
     Map_unique := set_entry_unique (Map_entries m) k v (Map_unique m) |}.

Definition Map_from (entries : list (string * V)) : JSMap :=
  fold_left (fun m kv => Map_set m (fst kv) (snd kv)) entries Map_empty.

Definition Map_size (m : JSMap) : nat := List.length (Map_entries m).

Fixpoint get_entry (es : list (string * V)) (k : string) : option V :=
  match es with
  | [] => None
  | (k', v) :: rest => if String.eqb k' k then Some v else get_entry rest k
  end.

Definition Map_get (m : JSMap) (k : string) : option V := get_entry (Map_entries m) k.

End JSMap.

Arguments JSMap : clear implicits.

(** ** types/collaboration.ts *)

Definition SessionId : Type := string.
Definition ParticipantId : Type := string.

Inductive ParticipantRole := owner | editor | viewer.
Inductive ParticipantStatus := online | away | offline.
Inductive ConnectionState := disconnected | connecting | connected | reconnecting.
Inductive LeaveReason := manual | timeout | kicked.

Inductive ActionType :=
  | cube_create
  | cube_update
  | cube_delete
  | cube_select
  | cursor_move
  | participant_join
  | participant_leave
  | session_settings_update.

Definition ActionType_eqb (a b : ActionType) : bool :=
  match a, b with
  | cube_create, cube_create
  | cube_update, cube_update
  | cube_delete, cube_delete
  | cube_select, cube_select
  | cursor_move, cursor_move
  | participant_join, participant_join
  | participant_leave, participant_leave
  | session_settings_update, session_settings_update => true
  | _, _ => false
  end.

(** [arr.includes(x)] on an array of action type tags. *)
Definition Array_includes (arr : list ActionType) (x : ActionType) : bool :=
  existsb (fun y => ActionType_eqb y x) arr.

(** What every action carries besides its [type] and [payload]. *)
Record BaseAction := {
  action_id : string;
  action_participantId : ParticipantId;
  action_timestamp : string;
  action_sessionId : SessionId
}.

Section CollaborationTypes.
Context {num : Type}.

Record CursorPosition := {
  cursor_x : num;
  cursor_y : num;
  cursor_z : num;
  selectedCubeId : option string
}.

Record Participant := {
  participant_id : ParticipantId;
  participant_name : string;
  participant_color : string;
  participant_role : ParticipantRole;
  participant_status : ParticipantStatus;
  participant_cursor : option CursorPosition;
  avatarUrl : option string;
  joinedAt : string;
  lastActiveAt : string
}.

Record SessionSettings := {
  settings_name : string;
  isOpen : bool;
  maxParticipants : num;
  allowRoleRequests : bool;
  autoSaveInterval : num
}.

(** [Partial<SessionSettings>]. *)
Record PartialSessionSettings := {
  partial_settings_name : option string;
  partial_isOpen : option bool;
  partial_maxParticipants : option num;
  partial_allowRoleRequests : option bool;
  partial_autoSaveInterval : option num
}.

(** [SpectralCube | FFTCubeConfig]. *)
Inductive CubeConfig :=
  | Spectral (cube : SpectralCube num)
  | FFT (cube : FFTCubeConfig num).

(** [Partial<SpectralCube>] and [Partial<FFTCubeConfig>]. *)
Record PartialSpectralCube := {
  partial_cube_id : option string;
  partial_cube_prompt : option string;
  partial_cube_base : option (CubeBase num);
  partial_cube_gradients : option (list (CubeGradient num));
  partial_cube_noise : option (CubeNoise num);
  partial_cube_physics : option (CubePhysics num);
  partial_cube_meta : option CubeMeta;
  partial_cube_boundary : option (CubeBoundary num)
}.

Record PartialFFTCubeConfig := {
  partial_fft_id : option string;
  partial_fft_prompt : option string;
  partial_fft_is_magical : option bool;
  partial_fft_fft_size : option FFTSize;
  partial_fft_energy_capacity : option num;
  partial_fft_current_energy : option num;
  partial_fft_channels : option (FFTChannels num);
  partial_fft_physics : option (FFTCubePhysics num);
  partial_fft_meta : option CubeMeta;
  partial_fft_boundary : option (CubeBoundary num)
}.

Inductive PartialCubeConfig :=
  | PartialSpectral (changes : PartialSpectralCube)
  | PartialFFT (changes : PartialFFTCubeConfig).

Record Session := {
  session_id : SessionId;
  session_code : string;
  session_settings : SessionSettings;
  ownerId : ParticipantId;
  participants : JSMap Participant;
  cubes : JSMap CubeConfig;
  createdAt : string;
  modifiedAt : string
}.

Record SerializableSession := {
  serializable_id : SessionId;
  serializable_code : string;
  serializable_settings : SessionSettings;
  serializable_ownerId : ParticipantId;
  serializable_participants : list (ParticipantId * Participant);
  serializable_cubes : list (string * CubeConfig);
  serializable_createdAt : string;
  serializable_modifiedAt : string
}.

(** The union [CollaborativeAction]: one constructor per member interface,
    each with its base fields and its payload. *)
Inductive CollaborativeAction :=
  | CubeCreateAction (base : BaseAction) (cube : CubeConfig)
  | CubeUpdateAction (base : BaseAction) (cubeId : string) (changes : PartialCubeConfig)
      (previousState : option CubeConfig)
  | CubeDeleteAction (base : BaseAction) (cubeId : string) (deletedCube : option CubeConfig)
  | CubeSelectAction (base : BaseAction) (cubeId : option string)
  | CursorMoveAction (base : BaseAction) (position : CursorPosition)
  | ParticipantJoinAction (base : BaseAction) (participant : Participant)
  | ParticipantLeaveAction (base : BaseAction) (reason : option LeaveReason)
  | SessionSettingsUpdateAction (base : BaseAction) (settings : PartialSessionSettings).

(** The [type] field, fixed by each member interface. *)
Definition action_type (action : CollaborativeAction) : ActionType :=
  match action with
  | CubeCreateAction _ _ => cube_create
  | CubeUpdateAction _ _ _ _ => cube_update
  | CubeDeleteAction _ _ _ => cube_delete
  | CubeSelectAction _ _ => cube_select
  | CursorMoveAction _ _ => cursor_move
  | ParticipantJoinAction _ _ => participant_join
  | ParticipantLeaveAction _ _ => participant_leave
  | SessionSettingsUpdateAction _ _ => session_settings_update
  end.

Definition isCubeModificationAction (action : CollaborativeAction) : bool :=
  Array_includes [cube_create; cube_update; cube_delete] (action_type action).

Definition isPresenceAction (action : CollaborativeAction) : bool :=
  Array_includes [cursor_move; participant_join; participant_leave] (action_type action).

Definition serializeSession (session : Session) : SerializableSession :=
  {| serializable_id := session_id session;
     serializable_code := session_code session;
     serializable_settings := session_settings session;
     serializable_ownerId := ownerId session;
     serializable_participants := Map_entries (participants session);
     serializable_cubes := Map_entries (cubes session);
     serializable_createdAt := createdAt session;
     serializable_modifiedAt := modifiedAt session |}.

Definition deserializeSession (serializable : SerializableSession) : Session :=
  {| session_id := serializable_id serializable;
     session_code := serializable_code serializable;
     session_settings := serializable_settings serializable;
     ownerId := serializable_ownerId serializable;
     participants := Map_from (serializable_participants serializable);
     cubes := Map_from (serializable_cubes serializable);
     createdAt := serializable_createdAt serializable;
     modifiedAt := serializable_modifiedAt serializable |}.

End CollaborationTypes.

Arguments CursorPosition : clear implicits.
Arguments Participant : clear implicits.
Arguments SessionSettings : clear implicits.
Arguments PartialSessionSettings : clear implicits.
Arguments CubeConfig : clear implicits.
Arguments PartialSpectralCube : clear implicits.
Arguments PartialFFTCubeConfig : clear implicits.
Arguments PartialCubeConfig : clear implicits.
Arguments Session : clear implicits.
Arguments SerializableSession : clear implicits.
Arguments CollaborativeAction : clear implicits.

(** *** The random generators

    [Math.random] and [Date.now] read the world: a tape of the draws to come
    (each in [0, 1) on a real engine) and a tape of the clock readings to
    come (milliseconds).  Reading consumes the head of the tape. *)

Section Generators.
Context {num : Type} {N : Number num}.

Record World := {
  random_tape : nat -> num;
  clock_tape : nat -> Z
}.

Definition Eff (A : Type) : Type := World -> A * World.

Definition ret {A : Type} (a : A) : Eff A := fun w => (a, w).

Definition bind {A B : Type} (m : Eff A) (k : A -> Eff B) : Eff B :=
  fun w => let (a, w') := m w in k a w'.

Notation "x <- m ;; k" := (bind m (fun x => k))
  (at level 61, m at next level, right associativity).

Definition Math_random : Eff num :=
  fun w => (random_tape w 0,
            {| random_tape := fun n => random_tape w (S n); clock_tape := clock_tape w |}).

Definition Date_now : Eff Z :=
  fun w => (clock_tape w 0,
            {| random_tape := random_tape w; clock_tape := fun n => clock_tape w (S n) |}).

(** The engine's [Number.prototype.toString(36)], whose digits for a
    fraction the language leaves to the implementation. *)
Variable Number_toString36 : num -> string.

(** [`${n}`] for an integer [n]. *)
Definition Number_toString (n : Z) : string :=
  DecimalString.NilZero.string_of_int (Z.to_int n).

(** [`${x}`] for a string that may be [undefined]. *)
Definition String_of (x : option string) : string :=
  match x with
  | Some s => s
  | None => "undefined"
  end.

(** [s[i]] for a [number] index that came out of [Math.floor]. *)
Definition String_at (s : string) (i : option Z) : option string :=
  match i with
  | Some z =>
      if (z <? 0)%Z then None
      else match String.get (Z.to_nat z) s with
           | Some c => Some (String c EmptyString)
           | None => None
           end
  | None => None
  end.

Definition colors : list string :=
  [ "#FF6B6B"; "#4ECDC4"; "#45B7D1"; "#96CEB4"; "#FFEAA7";
    "#DDA0DD"; "#98D8C8"; "#F7DC6F"; "#BB8FCE"; "#85C1E9" ].

(** The result is [undefined] ([None]) when the index misses the palette. *)
Definition generateParticipantColor : Eff (option string) :=
  r <- Math_random ;;
  ret (Array_get colors (Math_floor (r * of_nat (List.length colors))%js)).

Definition chars : string := "ABCDEFGHJKMNPQRSTUVWXYZ23456789".

(** [n] more rounds of the loop [for (let i = 0; i < 6; i++)]. *)
Fixpoint sessionCode_loop (n : nat) (code : string) : Eff string :=
  match n with
  | O => ret code
  | S n' =>
      r <- Math_random ;;
      sessionCode_loop n'
        (code ++ String_of (String_at chars (Math_floor (r * of_nat (String.length chars))%js)))%string
  end.

Definition generateSessionCode : Eff string := sessionCode_loop 6 "".

Definition generateActionId : Eff string :=
  now <- Date_now ;;
  r <- Math_random ;;
  ret (Number_toString now ++ "-" ++ substring 2 7 (Number_toString36 r))%string.

Definition generateParticipantId : Eff string :=
  now <- Date_now ;;
  r <- Math_random ;;
  ret ("p-" ++ Number_toString now ++ "-" ++ substring 2 7 (Number_toString36 r))%string.

Definition generateSessionId : Eff string :=
  now <- Date_now ;;
  r <- Math_random ;;
  ret ("s-" ++ Number_toString now ++ "-" ++ substring 2 9 (Number_toString36 r))%string.

End Generators.

Arguments World : clear implicits.

(** ** shaders/energy-cube.ts *)

Inductive VisualizationMode := mode_energy | mode_amplitude | mode_phase.

Section EnergyCube.
Context {num : Type} {N : Number num}.

Record EnergyCubeConfig := {
  channelR : option (FFTChannel num);
  channelG : option (FFTChannel num);
  channelB : option (FFTChannel num);
  channelA : option (FFTChannel num);
  energyCapacity : option num;
  coherenceLoss : option num;
  fractureThreshold : option num
}.

(** The [options] argument; [{}] is the record of [None]s. *)
Record EnergyUniformOptions := {
  gridPosition : option (num * num * num);
  time : option num;
  visualizationMode : option VisualizationMode;
  channelMask : option num;
  energyScale : option num;
  glowIntensity : option num
}.

Definition ChannelMask_RGBA : num := of_Q 15.

(** The [value] of a uniform: a number, an array of numbers, or an array of
    arrays of numbers. *)
Inductive UniformValue :=
  | UNumber (x : num)
  | UVector (xs : list num)
  | UMatrix (rows : list (list num)).

(** The object a call returns, as its keys and values in the order written. *)
Definition Uniforms : Type := list (string * UniformValue).

Definition visualizationModeToInt (mode : VisualizationMode) : num :=
  match mode with
  | mode_energy => of_Q 0
  | mode_amplitude => of_Q 1
  | mode_phase => of_Q 2
  end.

Record ChannelUniforms := {
  uniforms_count : nat;
  uniforms_coeffs : list (list num);
  uniforms_freqZ : list num
}.

Definition zero4 : list num := [of_Q 0; of_Q 0; of_Q 0; of_Q 0].

(** One round of the loop [for (let i = 0; i < 8; i++)] of
    [channelToUniforms] on the two arrays built so far; [None] is the
    [TypeError] of reading a field of [channel.coefficients[i]] when that is
    [undefined]. *)
Definition pushCoefficient (cs : list (FFTCoefficient num)) (count : nat)
    (state : option (list (list num) * list num)) (i : nat)
    : option (list (list num) * list num) :=
  match state with
  | None => None
  | Some (coeffs, fz) =>
      if Nat.ltb i count then
        match nth_error cs i with
        | Some c =>
            Some (coeffs ++ [[amplitude c; phase c; freqX c; freqY c]], fz ++ [freqZ c])
        | None => None
        end
      else Some (coeffs ++ [zero4], fz ++ [of_Q 0])
  end.

Definition channelToUniforms (channel : option (FFTChannel num)) : option ChannelUniforms :=
  match channel with
  | None =>
      Some {| uniforms_count := 0;
              uniforms_coeffs := map (fun _ => zero4) (repeat tt 8);
              uniforms_freqZ := repeat (of_Q 0) 8 |}
  | Some channel =>
      let count := Nat.min (List.length (coefficients channel)) 8 in
      match fold_left (pushCoefficient (coefficients channel) count) (seq 0 8) (Some ([], [])) with
      | Some (coeffs, fz) =>
          Some {| uniforms_count := count; uniforms_coeffs := coeffs; uniforms_freqZ := fz |}
      | None => None
      end
  end.

Definition vec3 (v : num * num * num) : list num :=
  let '(x, y, z) := v in [x; y; z].

Definition createEnergyUniforms (config : EnergyCubeConfig) (options : EnergyUniformOptions)
    : option Uniforms :=
  let gridPosition := gridPosition options ?? (of_Q 0, of_Q 0, of_Q 0) in
  let time := time options ?? of_Q 0 in
  let visualizationMode := visualizationMode options ?? mode_energy in
  let channelMask := channelMask options ?? ChannelMask_RGBA in
  let energyScale := energyScale options ?? of_Q 1 in
  let glowIntensity := glowIntensity options ?? of_Q 0.5 in
  match channelToUniforms (channelR config), channelToUniforms (channelG config),
        channelToUniforms (channelB config), channelToUniforms (channelA config) with
  | Some rData, Some gData, Some bData, Some aData =>
      Some
        [ ("uTime", UNumber time);
          ("uEnergyScale", UNumber energyScale);
          ("uGlowIntensity", UNumber glowIntensity);
          ("uDCAmplitude",
           UVector [ option_map dcAmplitude (channelR config) ?? of_Q 0.5;
                     option_map dcAmplitude (channelG config) ?? of_Q 0.5;
                     option_map dcAmplitude (channelB config) ?? of_Q 0.5;
                     option_map dcAmplitude (channelA config) ?? of_Q 1 ]);
          ("uDCPhase",
           UVector [ option_map dcPhase (channelR config) ?? of_Q 0;
                     option_map dcPhase (channelG config) ?? of_Q 0;
                     option_map dcPhase (channelB config) ?? of_Q 0;
                     option_map dcPhase (channelA config) ?? of_Q 0 ]);
          ("uCoeffCountR", UNumber (of_nat (uniforms_count rData)));
          ("uCoeffCountG", UNumber (of_nat (uniforms_count gData)));
          ("uCoeffCountB", UNumber (of_nat (uniforms_count bData)));
          ("uCoeffCountA", UNumber (of_nat (uniforms_count aData)));
          ("uCoeffR", UMatrix (uniforms_coeffs rData));
          ("uCoeffRFreqZ", UVector (uniforms_freqZ rData));
          ("uCoeffG", UMatrix (uniforms_coeffs gData));
          ("uCoeffGFreqZ", UVector (uniforms_freqZ gData));
          ("uCoeffB", UMatrix (uniforms_coeffs bData));
          ("uCoeffBFreqZ", UVector (uniforms_freqZ bData));
          ("uCoeffA", UMatrix (uniforms_coeffs aData));
          ("uCoeffAFreqZ", UVector (uniforms_freqZ aData));
          ("uEnergyCapacity", UNumber (energyCapacity config ?? of_Q 100));
          ("uCoherenceLoss", UNumber (coherenceLoss config ?? of_Q 0));
          ("uFractureThreshold", UNumber (fractureThreshold config ?? of_Q 0));
          ("uVisualizationMode", UNumber (visualizationModeToInt visualizationMode));
          ("uChannelMask", UNumber channelMask);
          ("uLightDirection", UVector [of_Q 1; of_Q 1; of_Q 1]);
          ("uLightColor", UVector [of_Q 1; of_Q 1; of_Q 1]);
          ("uAmbientIntensity", UNumber (of_Q 0.4));
          ("uBoundaryMode", UNumber (of_Q 1));
          ("uNeighborInfluence", UNumber (of_Q 0.5));
          ("uGridPosition", UVector (vec3 gridPosition)) ]
  | _, _, _, _ => None
  end.

End EnergyCube.

Arguments EnergyCubeConfig : clear implicits.
Arguments EnergyUniformOptions : clear implicits.
Arguments UniformValue : clear implicits.
Arguments Uniforms : clear implicits.
Arguments ChannelUniforms : clear implicits.

(** ** The properties, in the words of the specification *)

Section StackSpec.
Context {num : Type} {N : Number num}.

(** [Σ f(layer)] over the layers, bottom to top, starting from [0]. *)
Definition sum_over (f : StackLayer num -> num) (layers : list (StackLayer num)) : num :=
  fold_left (fun sum layer => (sum + f layer)%js) layers (of_Q 0).

(** A layer's height, [1] when absent. *)
Definition height_of (layer : StackLayer num) : num :=
  layer_height layer ?? of_Q 1.

(** A layer's [cubeConfig.physics.density], [2.5] when absent. *)
Definition density_of (layer : StackLayer num) : num :=
  match cube_physics (layer_cubeConfig layer) with
  | Some p => physics_density p ?? of_Q 2.5
  | None => of_Q 2.5
  end.

(** What [createCubeStack] leaves of an input layer in the output layer:
    everything but [position] and [transitionToNext]. *)
Definition same_content (input output : StackLayer num) : Prop :=
  layer_id output = layer_id input /\
  layer_name output = layer_name input /\
  layer_cubeConfig output = layer_cubeConfig input /\
  layer_height output = layer_height input.

(** The positions of a stack of [n] layers, bottom to top. *)
Definition expected_positions (n : nat) : list StackLayerPosition :=
  match n with
  | 0 => []
  | 1 => [single]
  | S (S k) => bottom :: repeat middle k ++ [top]
  end.

(** The transition of an output layer: none on a [top] or [single] layer,
    otherwise the input layer's, or the default when it had none. *)
Definition transition_invariant (input output : StackLayer num) : Prop :=
  match layer_position output with
  | top | single => layer_transitionToNext output = None
  | bottom | middle =>
      layer_transitionToNext output
      = Some (layer_transitionToNext input ?? DEFAULT_STACK_TRANSITION)
  end.

(** The easing curves at transition progress [t]. *)
Definition easing_curve (e : Easing) (t : num) : num :=
  match e with
  | linear => t
  | smooth => (t * t * (of_Q 3 - of_Q 2 * t))%js
  | ease_in => (t * t)%js
  | ease_out => (of_Q 1 - (of_Q 1 - t) * (of_Q 1 - t))%js
  end.

End StackSpec.

Section EnergySpec.
Context {num : Type} {N : Number num}.

(** What the specification asks of the three uniforms of one channel: the
    count is [min(#coefficients, 8)]; both arrays have 8 entries; entry
    [i < count] is [[amplitude, phase, freqX, freqY]] of coefficient [i], with
    its [freqZ] beside; every later entry is [[0,0,0,0]] with [freqZ] 0.  A
    missing channel has count 0 and all-zero arrays. *)
Definition marshalled (channel : option (FFTChannel num))
    (count coeffs fz : option (UniformValue num)) : Prop :=
  match channel with
  | None =>
      count = Some (UNumber (of_nat 0)) /\
      coeffs = Some (UMatrix (repeat [of_Q 0; of_Q 0; of_Q 0; of_Q 0] 8)) /\
      fz = Some (UVector (repeat (of_Q 0) 8))
  | Some channel =>
      let cs := coefficients channel in
      let n := Nat.min (List.length cs) 8 in
      count = Some (UNumber (of_nat n)) /\
      exists (rows : list (list num)) (zs : list num),
        coeffs = Some (UMatrix rows) /\ fz = Some (UVector zs) /\
        List.length rows = 8 /\ List.length zs = 8 /\
        (forall (i : nat) (c : FFTCoefficient num),
            i < n -> nth_error cs i = Some c ->
            nth_error rows i = Some [amplitude c; phase c; freqX c; freqY c] /\
            nth_error zs i = Some (freqZ c)) /\
        (forall i : nat,
            n <= i -> i < 8 ->
            nth_error rows i = Some [of_Q 0; of_Q 0; of_Q 0; of_Q 0] /\
            nth_error zs i = Some (of_Q 0))
  end.

End EnergySpec.

Section EnergyAux.
Context {num : Type} {N : Number num}.

(** Row [i] and [freqZ] entry [i] of the arrays the loop builds. *)
Definition rowAt (cs : list (FFTCoefficient num)) (count i : nat) : list num :=
  match nth_error cs i with
  | Some c => if Nat.ltb i count then [amplitude c; phase c; freqX c; freqY c] else zero4
  | None => zero4
  end.

Definition freqZAt (cs : list (FFTCoefficient num)) (count i : nat) : num :=
  match nth_error cs i with
  | Some c => if Nat.ltb i count then freqZ c else of_Q 0
  | None => of_Q 0
  end.

End EnergyAux.

Section GeneratorSpec.
Context {num : Type}.

(** A generator is deterministic when any two calls, whatever the world
    each runs in, return the same value. *)
Definition deterministic {A : Type} (g : World num -> A * World num) : Prop :=
  forall w1 w2 : World num, fst (g w1) = fst (g w2).

(** Two worlds whose next [n] draws agree. *)
Definition same_draws (n : nat) (w1 w2 : World num) : Prop :=
  forall k : nat, k < n -> random_tape w1 k = random_tape w2 k.

(** Two worlds whose next clock readings agree. *)
Definition same_clock (w1 w2 : World num) : Prop :=
  clock_tape w1 0 = clock_tape w2 0.

End GeneratorSpec.

(** Worlds whose next [n] draws are what [Math.random] promises: in [0, 1). *)
Definition unit_draws (n : nat) (w : World Q) : Prop :=
  forall k : nat, k < n -> (0 <= random_tape w k < 1)%Q.

(** ** Inputs of the test suites *)

Section Fixtures.
Context {num : Type} {N : Number num}.

(** A cube with grey base colour and nothing else, as the tests' cubes are
    as far as the stack functions read them. *)
Definition testCube : SpectralCube num := {|
  cube_id := "test";
  cube_prompt := None;
  cube_base := {| base_color := (of_Q 0.5, of_Q 0.5, of_Q 0.5);
                  base_roughness := Some (of_Q 0.5);
                  base_transparency := Some (of_Q 1) |};
  cube_gradients := Some [];
  cube_noise := None;
  cube_physics := Some {| physics_material := Some stone;
                          physics_density := Some (of_Q 2.5);
                          physics_break_pattern := Some crumble |};
  cube_meta := None;
  cube_boundary := None
|}.

(** [{ ...cube, physics: { material: 'stone', density } }]. *)
Definition withDensity (density : Q) (cube : SpectralCube num) : SpectralCube num := {|
  cube_id := cube_id cube;
  cube_prompt := cube_prompt cube;
  cube_base := cube_base cube;
  cube_gradients := cube_gradients cube;
  cube_noise := cube_noise cube;
  cube_physics := Some {| physics_material := Some stone;
                          physics_density := Some (of_Q density);
                          physics_break_pattern := None |};
  cube_meta := cube_meta cube;
  cube_boundary := cube_boundary cube
|}.

(** [{ ...createStackLayer('l1', testCube, 'bottom', height),
       transitionToNext: { type: 'blend', blendHeight, easing } }]. *)
Definition blendLayer (height blendHeight : Q) (easing : Easing) : StackLayer num := {|
  layer_id := "l1";
  layer_name := None;
  layer_position := bottom;
  layer_cubeConfig := testCube;
  layer_height := Some (of_Q height);
  layer_transitionToNext := Some {|
    transition_type := transition_blend;
    transition_blendHeight := Some (of_Q blendHeight);
    transition_easing := Some easing;
    transition_blendNoise := None;
    transition_blendGradients := None |}
|}.

(** The two-layer stack of the [getLayerBlendFactor] tests, with the height,
    blend height and easing of its lower layer left open. *)
Definition blendStack (height blendHeight : Q) (easing : Easing) : CubeStackConfig num :=
  createCubeStack "stack"
    [ blendLayer height blendHeight easing;
      createStackLayer "l2" testCube (Some top) (Some (of_Q 1)) ]
    None "2024-01-01T00:00:00.000Z".

(** [createEnergyUniforms(config)] is called without [options]: [{}]. *)
Definition noOptions : EnergyUniformOptions num := {|
  gridPosition := None;
  time := None;
  visualizationMode := None;
  channelMask := None;
  energyScale := None;
  glowIntensity := None
|}.

(** The configuration [{}] with, at most, a red channel. *)
Definition redConfig (channel : option (FFTChannel num)) : EnergyCubeConfig num := {|
  channelR := channel;
  channelG := None;
  channelB := None;
  channelA := None;
  energyCapacity := None;
  coherenceLoss := None;
  fractureThreshold := None
|}.

(** A channel of ten coefficients, the [k]-th with amplitude [k]. *)
Definition tenCoefficients : FFTChannel num := {|
  dcAmplitude := of_Q 0.8;
  dcPhase := of_Q 0;
  coefficients :=
    map (fun k => {| amplitude := of_nat k; phase := of_Q 0;
                     freqX := of_Q 1; freqY := of_Q 0; freqZ := of_Q 2 |})
        (seq 1 10)
|}.

(** The session of the serialisation test: one participant, no cubes. *)
Definition testParticipant : Participant num := {|
  participant_id := "p1";
  participant_name := "Test User";
  participant_color := "#FF6B6B";
  participant_role := owner;
  participant_status := online;
  participant_cursor := None;
  avatarUrl := None;
  joinedAt := "2024-01-01T00:00:00.000Z";
  lastActiveAt := "2024-01-01T00:00:00.000Z"
|}.

Definition DEFAULT_SESSION_SETTINGS : SessionSettings num := {|
  settings_name := "Untitled Session";
  isOpen := true;
  maxParticipants := of_Q 10;
  allowRoleRequests := true;
  autoSaveInterval := of_Q 30000
|}.

Definition testSession : Session num := {|
  session_id := "s1";
  session_code := "ABC123";
  session_settings := DEFAULT_SESSION_SETTINGS;
  ownerId := "p1";
  participants := Map_from [("p1", testParticipant)];
  cubes := Map_from [];
  createdAt := "2024-01-01T00:00:00.000Z";
  modifiedAt := "2024-01-01T00:00:00.000Z"
|}.

(** A world whose draws and clock readings are the listed ones, then
    repeat the last of them. *)
Definition world_of (draws : list Q) (clock : list Z) : World num := {|
  random_tape := fun n => of_Q (nth n draws (last draws 0%Q));
  clock_tape := fun n => nth n clock (last clock 0%Z)
|}.

End Fixtures.

(** The world of two successive calls: draws 0.05, 0.95, 0.5, ... and a clock
    that has moved on by a millisecond between the calls. *)
Definition two_calls : World float :=
  world_of [0.05; 0.95; 0.5; 0.999; 0; 0.33; 0.7; 0.2; 0.61; 0.4; 0.15; 0.8]%Q
           [1730581234567; 1730581234568]%Z.

(** ** types/stack.ts, the other functions *)

Section StackMore.
Context {num : Type} {N : Number num}.

(** One round of the loop [for (let i = 0; i < layerIndex; i++)] of
    [getLayerYPosition]; [None] is the [TypeError] of reading [height] off
    [stack.layers[i]] when that is [undefined]. *)
Definition addLayerHeight (layers : list (StackLayer num)) (yPosition : option num) (i : nat)
    : option num :=
  match yPosition, nth_error layers i with
  | Some yPosition, Some layer => Some (yPosition + (layer_height layer ?? of_Q 1))%js
  | _, _ => None
  end.

Definition getLayerYPosition (stack : CubeStackConfig num) (layerIndex : nat) : option num :=
  match fold_left (addLayerHeight (stack_layers stack)) (seq 0 layerIndex) (Some (of_Q 0)) with
  | Some yPosition =>
      match nth_error (stack_layers stack) layerIndex with
      | Some layer => Some (yPosition + (layer_height layer ?? of_Q 1) / of_Q 2)%js
      | None => None
      end
  | None => None
  end.

Definition getStackCenterOffset (stack : CubeStackConfig num) : num :=
  (totalHeight stack / of_Q 2)%js.

(** The engine's [Number.prototype.toString()], which [Array.prototype.join]
    applies to each colour component. *)
Variable Number_toDecimal : num -> string.

(** [color.join(',')]. *)
Definition Color3_join (color : Color3 num) : string :=
  let '(r, g, b) := color in
  (Number_toDecimal r ++ "," ++ Number_toDecimal g ++ "," ++ Number_toDecimal b)%string.

(** The interpolation parameter of layer [i] of [layerCount]. *)
Definition gradientT (layerCount i : nat) : num :=
  if Nat.eqb layerCount 1 then of_Q 0.5
  else (of_nat i / (of_nat layerCount - of_Q 1))%js.

(** The body of the loop [for (let i = 0; i < layerCount; i++)] of
    [createGradientStack]: the layer it pushes. *)
Definition gradientLayer (id : string) (baseColor topColor : Color3 num) (layerCount : nat)
    (material : MaterialType) (i : nat) : StackLayer num :=
  let t := gradientT layerCount i in
  let '(base0, base1, base2) := baseColor in
  let '(top0, top1, top2) := topColor in
  let interpolatedColor : Color3 num :=
    ((base0 + (top0 - base0) * t)%js,
     (base1 + (top1 - base1) * t)%js,
     (base2 + (top2 - base2) * t)%js) in
  let cubeConfig : SpectralCube num :=
    {| cube_id := (id ++ "-layer-" ++ Number_toString (Z.of_nat i))%string;
       cube_prompt := None;
       cube_base := {| base_color := interpolatedColor;
                       base_roughness := Some (of_Q 0.6 + t * of_Q 0.2)%js;
                       base_transparency := Some (of_Q 1) |};
       cube_gradients := None;
       cube_noise := None;
       cube_physics := Some {| physics_material := Some material;
                               physics_density := Some (of_Q 2.5 - t * of_Q 0.5)%js;
                               physics_break_pattern := Some crumble |};
       cube_meta := None;
       cube_boundary := None |} in
  createStackLayer ("layer-" ++ Number_toString (Z.of_nat i))%string cubeConfig None None.

(** [layerCount] is a count of layers: a natural number (default 3);
    [created] is the clock reading of [createCubeStack]. *)
Definition createGradientStack (id : string) (baseColor topColor : Color3 num)
    (layerCount : option nat) (material : option MaterialType) (created : string)
    : CubeStackConfig num :=
  let layerCount := layerCount ?? 3 in
  let material := material ?? stone in
  let layers := map (gradientLayer id baseColor topColor layerCount material) (seq 0 layerCount) in
  createCubeStack id layers
    (Some ("Gradient stack from " ++ Color3_join baseColor ++ " to " ++ Color3_join topColor)%string)
    created.

End StackMore.

(** ** shaders/energy-cube.ts, the other functions *)

Section EnergyMore.
Context {num : Type} {N : Number num}.

Definition defaultUniforms : Uniforms num :=
  [ ("uTime", UNumber (of_Q 0));
    ("uEnergyScale", UNumber (of_Q 1));
    ("uGlowIntensity", UNumber (of_Q 0.5));
    ("uDCAmplitude", UVector [of_Q 0.5; of_Q 0.5; of_Q 0.5; of_Q 1]);
    ("uDCPhase", UVector [of_Q 0; of_Q 0; of_Q 0; of_Q 0]);
    ("uCoeffCountR", UNumber (of_Q 0));
    ("uCoeffCountG", UNumber (of_Q 0));
    ("uCoeffCountB", UNumber (of_Q 0));
    ("uCoeffCountA", UNumber (of_Q 0));
    ("uCoeffR", UMatrix (repeat [of_Q 0; of_Q 0; of_Q 0; of_Q 0] 8));
    ("uCoeffRFreqZ", UVector (repeat (of_Q 0) 8));
    ("uCoeffG", UMatrix (repeat [of_Q 0; of_Q 0; of_Q 0; of_Q 0] 8));
    ("uCoeffGFreqZ", UVector (repeat (of_Q 0) 8));
    ("uCoeffB", UMatrix (repeat [of_Q 0; of_Q 0; of_Q 0; of_Q 0] 8));
    ("uCoeffBFreqZ", UVector (repeat (of_Q 0) 8));
    ("uCoeffA", UMatrix (repeat [of_Q 0; of_Q 0; of_Q 0; of_Q 0] 8));
    ("uCoeffAFreqZ", UVector (repeat (of_Q 0) 8));
    ("uEnergyCapacity", UNumber (of_Q 100));
    ("uCoherenceLoss", UNumber (of_Q 0));
    ("uFractureThreshold", UNumber (of_Q 0));
    ("uVisualizationMode", UNumber (of_Q 0));
    ("uChannelMask", UNumber (of_Q 15));
    ("uLightDirection", UVector [of_Q 1; of_Q 1; of_Q 1]);
    ("uLightColor", UVector [of_Q 1; of_Q 1; of_Q 1]);
    ("uAmbientIntensity", UNumber (of_Q 0.4));
    ("uBoundaryMode", UNumber (of_Q 1));
    ("uNeighborInfluence", UNumber (of_Q 0.5));
    ("uGridPosition", UVector [of_Q 0; of_Q 0; of_Q 0]) ].

(** [Math.PI]. *)
Variable Math_PI : num.

Definition coefficient (a p x y z : num) : FFTCoefficient num :=
  {| amplitude := a; phase := p; freqX := x; freqY := y; freqZ := z |}.

Definition createSimpleEnergyConfig (baseColor : num * num * num) : EnergyCubeConfig num :=
  let '(base0, base1, base2) := baseColor in
  {| channelR := Some {|
       dcAmplitude := base0;
       dcPhase := of_Q 0;
       coefficients :=
         [ coefficient (of_Q 0.2) (of_Q 0) (of_Q 1) (of_Q 0) (of_Q 0);
           coefficient (of_Q 0.1) (Math_PI / of_Q 4)%js (of_Q 0) (of_Q 1) (of_Q 0) ] |};
     channelG := Some {|
       dcAmplitude := base1;
       dcPhase := of_Q 0;
       coefficients :=
         [ coefficient (of_Q 0.2) (Math_PI / of_Q 2)%js (of_Q 0) (of_Q 1) (of_Q 0);
           coefficient (of_Q 0.1) (Math_PI / of_Q 3)%js (of_Q 0) (of_Q 0) (of_Q 1) ] |};
     channelB := Some {|
       dcAmplitude := base2;
       dcPhase := of_Q 0;
       coefficients :=
         [ coefficient (of_Q 0.2) Math_PI (of_Q 0) (of_Q 0) (of_Q 1);
           coefficient (of_Q 0.1) (Math_PI / of_Q 6)%js (of_Q 1) (of_Q 0) (of_Q 0) ] |};
     channelA := Some {|
       dcAmplitude := of_Q 1;
       dcPhase := of_Q 0;
       coefficients := [] |};
     energyCapacity := Some (of_Q 50);
     coherenceLoss := Some (of_Q 0);
     fractureThreshold := Some (of_Q 0) |}.

End EnergyMore.

(** ** The further properties, in the definitions they are stated with *)

Section MoreSpec.
Context {num : Type} {N : Number num}.

(** The curve [getLayerBlendFactor] applies: the named easing, or the
    identity when the transition names none (the [default] of the switch). *)
Definition easing_or_linear (e : option Easing) (t : num) : num :=
  match e with
  | Some e => easing_curve e t
  | None => t
  end.

(** What the shader declares of a uniform: a number, a vector of [n]
    components, or an array of vectors of the listed sizes. *)
Inductive UniformShape :=
  | SNumber
  | SVector (n : nat)
  | SMatrix (rows : list nat).

Definition shape_of (value : UniformValue num) : UniformShape :=
  match value with
  | UNumber _ => SNumber
  | UVector xs => SVector (List.length xs)
  | UMatrix rows => SMatrix (map (@List.length num) rows)
  end.

(** The names of the uniforms, in order, each with its shape. *)
Definition declared (u : Uniforms num) : list (string * UniformShape) :=
  map (fun entry => (fst entry, shape_of (snd entry))) u.

End MoreSpec.

(** The decimal digits. *)
Definition is_digit (c : ascii) : bool :=
  existsb (Ascii.eqb c) (list_ascii_of_string "0123456789").

Fixpoint all_digits (s : string) : bool :=
  match s with
  | EmptyString => true
  | String c rest => is_digit c && all_digits rest
  end.

(** The characters of [s] all come from [alphabet]. *)
Definition drawn_from (alphabet s : string) : Prop :=
  forall c : ascii, In c (list_ascii_of_string s) -> In c (list_ascii_of_string alphabet).

Section MoreExact.
Local Open Scope Q_scope.

(** Two colours with equal components. *)
Definition Color3_eq (a b : Color3 Q) : Prop :=
  let '(a0, a1, a2) := a in
  let '(b0, b1, b2) := b in
  a0 == b0 /\ a1 == b1 /\ a2 == b2.

(** A stack of two layers, the lower one 2 high with a smooth transition
    over its upper 40%, the upper one 1 high. *)
Definition tallStack : CubeStackConfig Q := blendStack 2 0.4 smooth.

(** The gradient stack of the tests: red to blue in three stone layers (the
    number formatter, which only the prompt reads, prints [0]). *)
Definition redToBlue : CubeStackConfig Q :=
  createGradientStack (fun _ => "0") "gradient" (1, 0, 0) (0, 0, 1) (Some 3%nat) None
                      "2024-01-01T00:00:00.000Z".

(** Six draws within [0, 1). *)
Definition sixDraws : World Q := world_of [0.05; 0.95; 0.5; 0.999; 0; 0.33] [].

End MoreExact.

(** * Theorems *)

(** ** The arithmetic *)

Section ExactArithmetic.
Local Open Scope Q_scope.

(** Dividing by the literal [1] changes nothing, representation included. *)
Lemma exact_div_one (x : Q) : (x / of_Q 1)%js = x.
Proof.
  destruct x as [n d]. cbn. unfold Qdiv, Qmult, Qinv. cbn.
  now rewrite Z.mul_1_r, Pos.mul_1_r.
Qed.

Lemma Q_ltb_lt (x y : Q) : Q_ltb x y = true <-> x < y.
Proof.
  unfold Q_ltb. rewrite Qlt_alt. destruct (x ?= y); split; congruence.
Qed.

Lemma Q_ltb_ge (x y : Q) : Q_ltb x y = false <-> y <= x.
Proof.
  rewrite <- not_true_iff_false, Q_ltb_lt. split; [apply Qnot_lt_le|apply Qle_not_lt].
Qed.

End ExactArithmetic.

#[export] Instance exact_lawful : LawfulNumber Q := {| div_one := exact_div_one |}.

Section Binary64Arithmetic.
Local Open Scope Z_scope.

(** The mantissa of [1.0]: [2^52], with exponent [-52]. *)
Definition mantissa_of_one : positive := 4503599627370496.

Lemma div_eucl_div_mod (a b : Z) : Z.div_eucl a b = (a / b, a mod b).
Proof.
  unfold Z.div, Z.modulo. now destruct (Z.div_eucl a b).
Qed.

Lemma div_eucl_shift (m : positive) (k : Z) (q : positive) :
  0 <= k -> Zpos m * 2 ^ k = Zpos q * Zpos mantissa_of_one ->
  Z.div_eucl (Z.shiftl (Zpos m) k) (Zpos mantissa_of_one) = (Zpos q, 0).
Proof.
  intros Hk Hq. rewrite div_eucl_div_mod, Z.shiftl_mul_pow2, Hq by assumption.
  rewrite Z.div_mul, Z.mod_mul by discriminate. reflexivity.
Qed.

(** Rounding a mantissa that is already canonical leaves it as it is. *)
Lemma binary_round_aux_canonical (s : bool) (m : positive) (e : Z) :
  bounded prec emax m e = true ->
  binary_round_aux prec emax s (Zpos m) e loc_Exact = S754_finite s m e.
Proof.
  unfold bounded, canonical_mantissa.
  intros H. apply andb_true_iff in H. destruct H as [Hc He].
  apply Z.eqb_eq in Hc.
  unfold binary_round_aux, shr_fexp. cbn [Zdigits2 shr_record_of_loc].
  rewrite Hc, Z.sub_diag.
  cbn [shr shr_m loc_of_shr_record round_nearest_even Zdigits2 shr_record_of_loc].
  rewrite Hc, Z.sub_diag. cbn [shr shr_m]. now rewrite He.
Qed.

(** The IEEE-754 quotient of a finite number by [1.0] is that number: the
    quotient of the mantissas is exact, and rounding it gives the mantissa
    back, whether the number is normal or subnormal. *)
Lemma SFdiv_one (s : bool) (m : positive) (e : Z) :
  bounded prec emax m e = true ->
  SFdiv prec emax (S754_finite s m e) (S754_finite false mantissa_of_one (-52))
  = S754_finite s m e.
Proof.
  intros Hb. pose proof Hb as H.
  unfold bounded, canonical_mantissa, fexp, emin, prec, emax in H.
  apply andb_true_iff in H. destruct H as [Hc He].
  apply Z.eqb_eq in Hc. apply Z.leb_le in He.
  set (D := Zpos (digits2_pos m)) in *.
  assert (HD : 0 < D) by (unfold D; lia).
  unfold SFdiv, SFdiv_core_binary.
  change (Zdigits2 (Zpos m)) with D.
  change (Zdigits2 (Zpos mantissa_of_one)) with 53.
  rewrite xorb_false_r.
  destruct (Z.eq_dec D 53) as [HD53|HD53]; [destruct (Z_le_gt_dec (-1073) e) as [Hn|Hn]|].
  - (* a normal number above the smallest exponent: the quotient has one bit more *)
    assert (He' : Z.min (fexp prec emax (D + e - (53 + -52))) (e - -52) = e - 1)
      by (unfold fexp, emin, prec, emax; lia).
    rewrite He'. replace (e - -52 - (e - 1)) with 53 by lia.
    rewrite (div_eucl_shift m 53 (xO m))
      by (try lia; change (2 ^ 53) with (2 * Zpos mantissa_of_one); lia).
    change (new_location (Zpos mantissa_of_one) 0) with loc_Exact.
    unfold binary_round_aux, shr_fexp. cbn [Zdigits2 digits2_pos shr_record_of_loc].
    rewrite Pos2Z.inj_succ. fold D.
    assert (Hs : fexp prec emax (Z.succ D + (e - 1)) - (e - 1) = 1)
      by (unfold fexp, emin, prec, emax; lia).
    rewrite Hs.
    cbn [shr iter_pos shr_1 orb shr_m loc_of_shr_record round_nearest_even
         Zdigits2 shr_record_of_loc].
    replace (e - 1 + 1) with e by lia.
    fold D.
    assert (Hs' : fexp prec emax (D + e) - e = 0)
      by (unfold fexp, emin, prec, emax; lia).
    rewrite Hs'.
    cbn [shr shr_m]. unfold emax, prec.
    destruct (Z.leb_spec e (1024 - 53)); [reflexivity|lia].
  - (* a normal number at the smallest exponent *)
    assert (He' : Z.min (fexp prec emax (D + e - (53 + -52))) (e - -52) = e)
      by (unfold fexp, emin, prec, emax; lia).
    rewrite He'. replace (e - -52 - e) with 52 by lia.
    rewrite (div_eucl_shift m 52 m) by (try lia; reflexivity).
    change (new_location (Zpos mantissa_of_one) 0) with loc_Exact.
    now apply binary_round_aux_canonical.
  - (* a subnormal number *)
    assert (He' : Z.min (fexp prec emax (D + e - (53 + -52))) (e - -52) = e)
      by (unfold fexp, emin, prec, emax; lia).
    rewrite He'. replace (e - -52 - e) with 52 by lia.
    rewrite (div_eucl_shift m 52 m) by (try lia; reflexivity).
    change (new_location (Zpos mantissa_of_one) 0) with loc_Exact.
    now apply binary_round_aux_canonical.
Qed.

(** On binary64, [x / 1] is [x] for every [x]: zeros, infinities and NaN
    included. *)
Lemma binary64_div_one (x : float) : (x / of_Q 1)%js = x.
Proof.
  change (PrimFloat.div x 1 = x).
  apply Prim2SF_inj. rewrite div_spec.
  pose proof (Prim2SF_valid x) as Hv.
  change (Prim2SF 1) with (S754_finite false mantissa_of_one (-52)).
  destruct (Prim2SF x) as [[]|[]| |s m e]; try reflexivity.
  now apply SFdiv_one.
Qed.

End Binary64Arithmetic.

#[export] Instance binary64_lawful : LawfulNumber float := {| div_one := binary64_div_one |}.

(** ** Stack construction *)

Section ArrayFacts.
Context {A B : Type}.

Lemma Array_map_from_length (f : A -> nat -> B) (arr : list A) (i : nat) :
  List.length (Array_map_from f i arr) = List.length arr.
Proof.
  revert i. induction arr as [|x rest IH]; intros i; simpl; [reflexivity|].
  now rewrite IH.
Qed.

Lemma Array_map_from_nth (f : A -> nat -> B) (arr : list A) (i k : nat) :
  nth_error (Array_map_from f i arr) k = option_map (fun x => f x (i + k)) (nth_error arr k).
Proof.
  revert i k. induction arr as [|x rest IH]; intros i [|k]; simpl; try reflexivity.
  - now rewrite Nat.add_0_r.
  - rewrite IH. now rewrite Nat.add_succ_r.
Qed.

Lemma Array_map_from_Forall2 (R : A -> B -> Prop) (f : A -> nat -> B) :
  (forall x i, R x (f x i)) ->
  forall arr i, Forall2 R arr (Array_map_from f i arr).
Proof.
  intros HR arr. induction arr as [|x rest IH]; intros i; simpl; constructor; auto.
Qed.

Lemma fold_left_Array_map_from {C : Type} (f : A -> nat -> B)
    (step : C -> B -> C) (step' : C -> A -> C) :
  (forall c x i, step c (f x i) = step' c x) ->
  forall arr i c, fold_left step (Array_map_from f i arr) c = fold_left step' arr c.
Proof.
  intros Hstep arr. induction arr as [|x rest IH]; intros i c; simpl; [reflexivity|].
  now rewrite Hstep, IH.
Qed.

End ArrayFacts.

Section StackFacts.
Context {num : Type} {N : Number num}.

(** C1. The total weight [createCubeStack] stores is the sum over the layers
    it was given of density times height, with density 2.5 and height 1
    standing in for a missing field. *)
Theorem createCubeStack_totalWeight :
  forall (id : string) (layers : list (StackLayer num)) (prompt : option string)
         (created : string),
    chain (physics (createCubeStack id layers prompt created)) totalWeight
    = Some (sum_over (fun layer => (density_of layer * height_of layer)%js) layers).
Proof.
  intros id layers prompt created. unfold createCubeStack, sum_over, Array_map. simpl.
  f_equal. apply fold_left_Array_map_from.
  intros c x i. unfold density_of, height_of, positionLayer. simpl.
  destruct (cube_physics (layer_cubeConfig x)); reflexivity.
Qed.

(** C3. The total height [createCubeStack] stores is the sum of the heights
    of the layers it was given, a missing height counting as 1. *)
Theorem createCubeStack_totalHeight :
  forall (id : string) (layers : list (StackLayer num)) (prompt : option string)
         (created : string),
    totalHeight (createCubeStack id layers prompt created) = sum_over height_of layers.
Proof.
  intros id layers prompt created. unfold createCubeStack, sum_over, Array_map. simpl.
  apply fold_left_Array_map_from. intros c x i. reflexivity.
Qed.

(** C7. [createCubeStack] keeps the layers it is given: as many, in the same
    order, each with its id, name, cubeConfig and height unchanged. *)
Theorem createCubeStack_preserves_layers :
  forall (id : string) (layers : list (StackLayer num)) (prompt : option string)
         (created : string),
    List.length (stack_layers (createCubeStack id layers prompt created)) = List.length layers /\
    Forall2 same_content layers (stack_layers (createCubeStack id layers prompt created)).
Proof.
  intros id layers prompt created. unfold createCubeStack, Array_map. simpl. split.
  - apply Array_map_from_length.
  - apply Array_map_from_Forall2. intros x i. repeat split.
Qed.

(** [createStackLayer] gives a layer the default transition exactly when
    its position is neither [top] nor [single]. *)
Lemma createStackLayer_transition (id : string) (cubeConfig : SpectralCube num)
    (position : option StackLayerPosition) (height : option num) :
  layer_transitionToNext (createStackLayer id cubeConfig position height)
  = match position ?? middle with
    | top | single => None
    | bottom | middle => Some DEFAULT_STACK_TRANSITION
    end.
Proof.
  unfold createStackLayer. cbn [layer_transitionToNext].
  destruct (position ?? middle); reflexivity.
Qed.

Lemma positionLayer_upper (layers : list (StackLayer num)) (n : nat) :
  List.length layers = S (S n) ->
  forall (rest : list (StackLayer num)) (i : nat),
    1 <= i -> i + List.length rest = S (S n) ->
    map layer_position (Array_map_from (positionLayer layers) i rest)
    = match rest with
      | [] => []
      | _ :: _ => repeat middle (List.length rest - 1) ++ [top]
      end.
Proof.
  intros Hlen rest. induction rest as [|x rest IH]; intros i Hi Hsum; [reflexivity|].
  simpl in Hsum. cbn [Array_map_from map]. rewrite IH by lia.
  unfold positionLayer at 1. cbn [layer_position]. rewrite Hlen.
  replace (Nat.eqb (S (S n)) 1) with false by reflexivity.
  destruct (Nat.eqb_spec i 0) as [E0|_]; [lia|].
  destruct rest as [|y rest].
  - simpl in Hsum. destruct (Nat.eqb_spec i (S (S n) - 1)) as [_|E]; [reflexivity|lia].
  - simpl in Hsum. destruct (Nat.eqb_spec i (S (S n) - 1)) as [E|_]; [lia|].
    cbn [List.length]. replace (S (S (List.length rest)) - 1) with (S (List.length rest)) by lia.
    replace (S (List.length rest) - 1) with (List.length rest) by lia.
    reflexivity.
Qed.

(** C9. In a stack built by [createCubeStack] a lone layer is [single]; of
    two or more the first is [bottom], the last [top], the others [middle];
    and a layer has a transition (its own, or the default when it had none)
    exactly when it is neither [top] nor [single]. *)
Theorem createCubeStack_positions :
  forall (id : string) (layers : list (StackLayer num)) (prompt : option string)
         (created : string),
    map layer_position (stack_layers (createCubeStack id layers prompt created))
    = expected_positions (List.length layers) /\
    Forall2 transition_invariant layers
            (stack_layers (createCubeStack id layers prompt created)).
Proof.
  intros id layers prompt created. unfold createCubeStack, Array_map. simpl. split.
  - destruct layers as [|x [|y rest]]; try reflexivity.
    cbn [Array_map_from map].
    rewrite (positionLayer_upper (x :: y :: rest) (List.length rest)); simpl; try lia;
      try reflexivity.
    destruct rest; simpl; rewrite ?Nat.sub_0_r; reflexivity.
  - apply Array_map_from_Forall2. intros x i.
    unfold transition_invariant, positionLayer. cbn [layer_position layer_transitionToNext].
    destruct (Nat.eqb (List.length layers) 1); [reflexivity|].
    destruct (Nat.eqb i 0); [reflexivity|].
    destruct (Nat.eqb i (List.length layers - 1)); reflexivity.
Qed.

End StackFacts.

(** ** Blend factor *)

Section BlendFacts.
Context {num : Type} {N : Number num}.

Lemma not_last_layer (stack : CubeStackConfig num) (layerIndex : nat) :
  S layerIndex < List.length (stack_layers stack) ->
  (Z.of_nat (List.length (stack_layers stack)) - 1 <=? Z.of_nat layerIndex)%Z = false.
Proof.
  intros H. apply Z.leb_gt. lia.
Qed.

(** The two cases in which [getLayerBlendFactor] does not blend: the layer
    has no transition, or it is the last layer of the stack. *)
Lemma getLayerBlendFactor_no_blending (stack : CubeStackConfig num) (layerIndex : nat)
    (layer : StackLayer num) (localY : num) :
  nth_error (stack_layers stack) layerIndex = Some layer ->
  layer_transitionToNext layer = None \/ S layerIndex = List.length (stack_layers stack) ->
  getLayerBlendFactor stack layerIndex localY = Some (of_Q 0).
Proof.
  intros Hnth Hcase. unfold getLayerBlendFactor. rewrite Hnth.
  destruct (layer_transitionToNext layer) as [transition|]; [|reflexivity].
  destruct Hcase as [Hnone|Hlast]; [discriminate|].
  replace (Z.of_nat (List.length (stack_layers stack)) - 1 <=? Z.of_nat layerIndex)%Z
    with true; [reflexivity|].
  symmetry. apply Z.leb_le. lia.
Qed.

(** C2. On a layer of height 1 that is not the last one and whose transition
    has blend height [b] (0.2 when absent), [getLayerBlendFactor] returns 0
    below the transition zone, and in the zone the easing curve at
    [t = (localY - (1 - b)) / b]: [t] for linear, [t*t*(3 - 2*t)] for smooth,
    [t*t] for ease-in, [1 - (1 - t)*(1 - t)] for ease-out.  It holds for
    every lawful arithmetic, binary64 and exact. *)
Theorem getLayerBlendFactor_easing :
  forall {L : LawfulNumber num}
         (stack : CubeStackConfig num) (layerIndex : nat) (layer : StackLayer num)
         (transition : StackTransition num) (localY : num),
    nth_error (stack_layers stack) layerIndex = Some layer ->
    S layerIndex < List.length (stack_layers stack) ->
    layer_transitionToNext layer = Some transition ->
    height_of layer = of_Q 1 ->
    let b := transition_blendHeight transition ?? of_Q 0.2 in
    let t := ((localY - (of_Q 1 - b)) / b)%js in
    ((localY <? of_Q 1 - b)%js = true ->
     getLayerBlendFactor stack layerIndex localY = Some (of_Q 0)) /\
    ((localY <? of_Q 1 - b)%js = false ->
     forall e : Easing,
       transition_easing transition = Some e ->
       getLayerBlendFactor stack layerIndex localY = Some (easing_curve e t)).
Proof.
  intros L stack layerIndex layer transition localY Hnth Hlast Htr Hheight b t.
  unfold getLayerBlendFactor. rewrite Hnth, Htr, (not_last_layer _ _ Hlast).
  unfold height_of in Hheight. rewrite Hheight, div_one. fold b.
  split.
  - intros Hbelow. now rewrite Hbelow.
  - intros Hzone e He. rewrite Hzone, He. fold t. destruct e; reflexivity.
Qed.

End BlendFacts.

(** ** Collaborative actions *)

Section ActionFacts.
Context {num : Type}.

(** C5. The type guards split the eight action types: the cube guard holds
    exactly on create, update and delete; the presence guard exactly on
    cursor move, join and leave; never both; and neither holds on a select
    or a settings update. *)
Theorem type_guards_partition :
  forall action : CollaborativeAction num,
    In (action_type action)
       [cube_create; cube_update; cube_delete; cube_select;
        cursor_move; participant_join; participant_leave; session_settings_update] /\
    (isCubeModificationAction action = true <->
     action_type action = cube_create \/ action_type action = cube_update \/
     action_type action = cube_delete) /\
    (isPresenceAction action = true <->
     action_type action = cursor_move \/ action_type action = participant_join \/
     action_type action = participant_leave) /\
    isCubeModificationAction action && isPresenceAction action = false /\
    (action_type action = cube_select \/ action_type action = session_settings_update ->
     isCubeModificationAction action = false /\ isPresenceAction action = false).
Proof.
  intros action. unfold isCubeModificationAction, isPresenceAction.
  destruct action; cbn; repeat split; intros; auto 10;
    repeat match goal with
           | H : _ \/ _ |- _ => destruct H
           end;
    discriminate.
Qed.

End ActionFacts.

(** ** Session serialisation *)

Section MapFacts.
Context {V : Type}.

Lemma has_key_app (k : string) (es es' : list (string * V)) :
  has_key k (es ++ es') = has_key k es || has_key k es'.
Proof.
  induction es as [|[k' v'] rest IH]; simpl; [reflexivity|].
  now rewrite IH, orb_assoc.
Qed.

Lemma unique_keys_app_head (acc rest : list (string * V)) (k : string) (v : V) :
  unique_keys (acc ++ (k, v) :: rest) = true -> has_key k acc = false.
Proof.
  induction acc as [|[k' v'] acc IH]; simpl; intros H; [reflexivity|].
  apply andb_true_iff in H. destruct H as [Hk' Hrest].
  rewrite (IH Hrest), orb_false_r.
  apply negb_true_iff in Hk'. rewrite has_key_app in Hk'. simpl in Hk'.
  apply orb_false_iff in Hk'. destruct Hk' as [_ Hk'].
  apply orb_false_iff in Hk'. destruct Hk' as [Hk' _].
  now rewrite String.eqb_sym.
Qed.

Lemma set_entry_fresh (es : list (string * V)) (k : string) (v : V) :
  has_key k es = false -> set_entry es k v = es ++ [(k, v)].
Proof.
  induction es as [|[k' v'] rest IH]; simpl; intros H; [reflexivity|].
  apply orb_false_iff in H. destruct H as [Hk Hrest].
  rewrite Hk. now rewrite IH.
Qed.

Lemma set_entries_unique (es acc : list (string * V)) :
  unique_keys (acc ++ es) = true ->
  fold_left (fun es' kv => set_entry es' (fst kv) (snd kv)) es acc = acc ++ es.
Proof.
  revert acc. induction es as [|[k v] rest IH]; intros acc H; simpl.
  - now rewrite app_nil_r.
  - rewrite (set_entry_fresh acc k v (unique_keys_app_head acc rest k v H)).
    rewrite IH; rewrite <- app_assoc; simpl; [reflexivity|assumption].
Qed.

Lemma Map_entries_fold (es : list (string * V)) (m : JSMap V) :
  Map_entries (fold_left (fun m kv => Map_set m (fst kv) (snd kv)) es m)
  = fold_left (fun es' kv => set_entry es' (fst kv) (snd kv)) es (Map_entries m).
Proof.
  revert m. induction es as [|kv rest IH]; intros m; simpl; [reflexivity|].
  now rewrite IH.
Qed.

(** [new Map(Array.from(m.entries()))] has the entries of [m], in order. *)
Lemma Map_from_entries (m : JSMap V) :
  Map_entries (Map_from (Map_entries m)) = Map_entries m.
Proof.
  unfold Map_from. rewrite Map_entries_fold. simpl.
  apply (set_entries_unique (Map_entries m) []). exact (Map_unique m).
Qed.

(** Two maps with the same entries are the same map. *)
Lemma JSMap_ext (m1 m2 : JSMap V) :
  Map_entries m1 = Map_entries m2 -> m1 = m2.
Proof.
  destruct m1 as [es1 u1], m2 as [es2 u2]. simpl. intros E. subst es2.
  f_equal. apply Eqdep_dec.UIP_dec. apply bool_dec.
Qed.

End MapFacts.

Section SessionFacts.
Context {num : Type}.

(** C8. Deserialising a serialised session gives back its id, code,
    settings, owner and timestamps, and maps of participants and of cubes
    with the same entries in the same order. *)
Theorem deserializeSession_serializeSession :
  forall s : Session num,
    session_id (deserializeSession (serializeSession s)) = session_id s /\
    session_code (deserializeSession (serializeSession s)) = session_code s /\
    session_settings (deserializeSession (serializeSession s)) = session_settings s /\
    ownerId (deserializeSession (serializeSession s)) = ownerId s /\
    createdAt (deserializeSession (serializeSession s)) = createdAt s /\
    modifiedAt (deserializeSession (serializeSession s)) = modifiedAt s /\
    Map_entries (participants (deserializeSession (serializeSession s)))
    = Map_entries (participants s) /\
    Map_entries (cubes (deserializeSession (serializeSession s))) = Map_entries (cubes s).
Proof.
  intros s. unfold deserializeSession, serializeSession. simpl.
  repeat split; apply Map_from_entries.
Qed.

(** Hence the round trip is the identity on sessions. *)
Lemma session_round_trip_identity (s : Session num) :
  deserializeSession (serializeSession s) = s.
Proof.
  destruct s as [i c st o ps cs ca ma]. unfold deserializeSession, serializeSession. simpl.
  f_equal; apply JSMap_ext, Map_from_entries.
Qed.

End SessionFacts.

(** ** FFT coefficients as shader uniforms *)

Section EnergyFacts.
Context {num : Type} {N : Number num}.

(** A round of the loop within the coefficients never hits the
    [TypeError], and appends row [i]. *)
Lemma pushCoefficient_step (cs : list (FFTCoefficient num)) (count i : nat)
    (rows : list (list num)) (zs : list num) :
  count <= List.length cs ->
  pushCoefficient cs count (Some (rows, zs)) i
  = Some (rows ++ [rowAt cs count i], zs ++ [freqZAt cs count i]).
Proof.
  intros Hcount. unfold pushCoefficient, rowAt, freqZAt.
  destruct (Nat.ltb_spec i count) as [Hlt|Hge].
  - destruct (nth_error cs i) as [c|] eqn:E; [reflexivity|].
    apply nth_error_None in E. lia.
  - destruct (nth_error cs i); reflexivity.
Qed.

(** After rounds [0 .. a+n) the arrays hold rows [0 .. a+n). *)
Lemma pushCoefficient_loop (cs : list (FFTCoefficient num)) (count : nat) :
  count <= List.length cs ->
  forall (n a : nat),
    fold_left (pushCoefficient cs count) (seq a n)
              (Some (map (rowAt cs count) (seq 0 a), map (freqZAt cs count) (seq 0 a)))
    = Some (map (rowAt cs count) (seq 0 (a + n)), map (freqZAt cs count) (seq 0 (a + n))).
Proof.
  intros Hcount n. induction n as [|n IH]; intros a.
  - now rewrite Nat.add_0_r.
  - cbn [seq fold_left]. rewrite pushCoefficient_step by assumption.
    replace (a + S n) with (S a + n) by lia.
    rewrite <- IH. do 2 f_equal. now rewrite seq_S, !map_app.
Qed.

Lemma nth_error_map_seq {B : Type} (f : nat -> B) (n i : nat) :
  i < n -> nth_error (map f (seq 0 n)) i = Some (f i).
Proof.
  intros H. rewrite nth_error_map, nth_error_seq.
  destruct (Nat.ltb_spec i n); [reflexivity|lia].
Qed.

Lemma rowAt_inside (cs : list (FFTCoefficient num)) (count i : nat) (c : FFTCoefficient num) :
  i < count -> nth_error cs i = Some c ->
  rowAt cs count i = [amplitude c; phase c; freqX c; freqY c] /\
  freqZAt cs count i = freqZ c.
Proof.
  intros Hi Hc. unfold rowAt, freqZAt. rewrite Hc.
  destruct (Nat.ltb_spec i count); [split; reflexivity|lia].
Qed.

Lemma rowAt_outside (cs : list (FFTCoefficient num)) (count i : nat) :
  count <= i -> rowAt cs count i = zero4 /\ freqZAt cs count i = of_Q 0.
Proof.
  intros Hi. unfold rowAt, freqZAt.
  destruct (nth_error cs i); [|split; reflexivity].
  destruct (Nat.ltb_spec i count); [lia|split; reflexivity].
Qed.

(** [channelToUniforms] always returns, and what it returns is the
    channel marshalled. *)
Lemma channelToUniforms_marshalled (channel : option (FFTChannel num)) :
  exists data : ChannelUniforms num,
    channelToUniforms channel = Some data /\
    marshalled channel
               (Some (UNumber (of_nat (uniforms_count data))))
               (Some (UMatrix (uniforms_coeffs data)))
               (Some (UVector (uniforms_freqZ data))).
Proof.
  destruct channel as [channel|]; unfold channelToUniforms.
  - pose proof (pushCoefficient_loop (coefficients channel)
                  (Nat.min (List.length (coefficients channel)) 8)
                  (Nat.le_min_l _ _) 8 0) as Hloop.
    cbn [seq map Nat.add] in Hloop. cbn [seq]. rewrite Hloop.
    eexists. split; [reflexivity|].
    cbn [marshalled uniforms_count uniforms_coeffs uniforms_freqZ].
    split; [reflexivity|].
    set (cs := coefficients channel). set (n := Nat.min (List.length cs) 8).
    exists (map (rowAt cs n) (seq 0 8)), (map (freqZAt cs n) (seq 0 8)).
    do 4 (split; [reflexivity|]). split.
    + intros i c Hi Hc. rewrite !nth_error_map_seq by lia.
      destruct (rowAt_inside cs n i c Hi Hc) as [Hrow Hz]. now rewrite Hrow, Hz.
    + intros i Hge Hlt. rewrite !nth_error_map_seq by lia.
      destruct (rowAt_outside cs n i Hge) as [Hrow Hz]. now rewrite Hrow, Hz.
  - eexists. split; [reflexivity|]. repeat split.
Qed.

(** C6. For every configuration, [createEnergyUniforms] returns uniforms in
    which each of the four channels is marshalled as the specification says:
    at most 8 coefficients, arrays of exactly 8 entries, zero padding, and
    count 0 with all-zero arrays for a missing channel. *)
Theorem createEnergyUniforms_channels :
  forall (config : EnergyCubeConfig num) (options : EnergyUniformOptions num),
  exists u : Uniforms num,
    createEnergyUniforms config options = Some u /\
    marshalled (channelR config)
               (get_entry u "uCoeffCountR") (get_entry u "uCoeffR") (get_entry u "uCoeffRFreqZ") /\
    marshalled (channelG config)
               (get_entry u "uCoeffCountG") (get_entry u "uCoeffG") (get_entry u "uCoeffGFreqZ") /\
    marshalled (channelB config)
               (get_entry u "uCoeffCountB") (get_entry u "uCoeffB") (get_entry u "uCoeffBFreqZ") /\
    marshalled (channelA config)
               (get_entry u "uCoeffCountA") (get_entry u "uCoeffA") (get_entry u "uCoeffAFreqZ").
Proof.
  intros config options. unfold createEnergyUniforms.
  destruct (channelToUniforms_marshalled (channelR config)) as [rData [ER HR]].
  destruct (channelToUniforms_marshalled (channelG config)) as [gData [EG HG]].
  destruct (channelToUniforms_marshalled (channelB config)) as [bData [EB HB]].
  destruct (channelToUniforms_marshalled (channelA config)) as [aData [EA HA]].
  rewrite ER, EG, EB, EA. eexists. split; [reflexivity|].
  cbn [get_entry String.eqb Ascii.eqb Bool.eqb].
  repeat split; assumption.
Qed.

End EnergyFacts.

(** ** The generators and the world *)

Section GeneratorFacts.
Context {num : Type} {N : Number num}.

Lemma sessionCode_loop_draws (n : nat) :
  forall (code : string) (w1 w2 : World num),
    same_draws n w1 w2 ->
    fst (sessionCode_loop n code w1) = fst (sessionCode_loop n code w2).
Proof.
  induction n as [|n IH]; intros code w1 w2 H; [reflexivity|].
  cbn [sessionCode_loop]. unfold bind, Math_random.
  rewrite (H 0) by lia. apply IH.
  intros k Hk. cbn [random_tape]. apply H. lia.
Qed.

(** C4, as the code has it. Each generator is a function of what it reads
    from the world: the colour of the next draw, the session code of the
    next six draws, the action id of the next clock reading and the next
    draw.  Two calls that read the same values return the same result. *)
Theorem generators_depend_on_world :
  forall (Number_toString36 : num -> string) (w1 w2 : World num),
    (same_draws 1 w1 w2 ->
     fst (generateParticipantColor w1) = fst (generateParticipantColor w2)) /\
    (same_draws 6 w1 w2 ->
     fst (generateSessionCode w1) = fst (generateSessionCode w2)) /\
    (same_clock w1 w2 -> same_draws 1 w1 w2 ->
     fst (generateActionId Number_toString36 w1) = fst (generateActionId Number_toString36 w2)).
Proof.
  intros ts w1 w2. repeat split.
  - intros H. unfold generateParticipantColor, bind, Math_random, ret. cbn [fst].
    now rewrite (H 0) by lia.
  - intros H. now apply sessionCode_loop_draws.
  - intros Hc H. unfold generateActionId, bind, Math_random, Date_now, ret.
    cbn [fst random_tape clock_tape]. unfold same_clock in Hc.
    now rewrite Hc, (H 0) by lia.
Qed.

End GeneratorFacts.

(** ** Exact arithmetic

    Facts of the rational instance: what the formulas say when no rounding
    and no NaN intervene. *)

Section ExactFacts.
Local Open Scope Q_scope.

Lemma sum_over_from (f : StackLayer Q -> Q) (layers : list (StackLayer Q)) (a : Q) :
  fold_left (fun sum layer => (sum + f layer)%js) layers a
  == a + fold_right (fun layer rest => f layer + rest) 0 layers.
Proof.
  revert a. induction layers as [|x rest IH]; intros a; simpl.
  - lra.
  - rewrite IH. lra.
Qed.

(** [sum_over] is the sum, whatever the order of the additions. *)
Lemma sum_over_exact (f : StackLayer Q -> Q) (layers : list (StackLayer Q)) :
  sum_over f layers == fold_right (fun layer rest => f layer + rest) 0 layers.
Proof.
  unfold sum_over. rewrite sum_over_from. cbn. lra.
Qed.

(** Every easing curve maps [0, 1] into [0, 1]. *)
Lemma easing_curve_range (e : Easing) (t : Q) :
  0 <= t <= 1 -> 0 <= easing_curve e t <= 1.
Proof.
  intros [H0 H1].
  assert (Hsq : 0 <= t * t) by nra.
  assert (Hsq' : 0 <= (1 - t) * (1 - t)) by nra.
  destruct e; cbn.
  - lra.
  - pose proof (Qmult_le_0_compat (t * t) (3 - 2 * t) Hsq ltac:(lra)) as Hlo.
    pose proof (Qmult_le_0_compat ((1 - t) * (1 - t)) (1 + 2 * t) Hsq' ltac:(lra)) as Hhi.
    split; [exact Hlo|]. nra.
  - nra.
  - nra.
Qed.

(** Where the blend factor does stay within [0, 1]: in exact arithmetic, on
    a layer at least 1 high, with a blend height other than 0. *)
Lemma getLayerBlendFactor_exact_range (stack : CubeStackConfig Q) (layerIndex : nat)
    (layer : StackLayer Q) (localY : Q) :
  nth_error (stack_layers stack) layerIndex = Some layer ->
  0 <= localY <= 1 ->
  1 <= height_of layer ->
  (forall transition : StackTransition Q,
      layer_transitionToNext layer = Some transition ->
      ~ (transition_blendHeight transition ?? 0.2) == 0) ->
  exists v : Q, getLayerBlendFactor stack layerIndex localY = Some v /\ 0 <= v <= 1.
Proof.
  intros Hnth [Hy0 Hy1] Hh Hb. unfold getLayerBlendFactor. rewrite Hnth.
  destruct (layer_transitionToNext layer) as [transition|]; [|exists 0; split; [reflexivity|lra]].
  specialize (Hb transition eq_refl).
  destruct (Z.of_nat (List.length (stack_layers stack)) - 1 <=? Z.of_nat layerIndex)%Z;
    [exists 0; split; [reflexivity|lra]|].
  unfold height_of in Hh. cbn [of_Q add sub mul div ltb exact_number] in *.
  set (b := transition_blendHeight transition ?? 0.2) in *.
  set (h := layer_height layer ?? 1) in *.
  assert (Hn0 : 0 <= localY / h) by (apply Qle_shift_div_l; lra).
  assert (Hn1 : localY / h <= 1) by (apply Qle_shift_div_r; lra).
  destruct (Q_ltb (localY / h) (1 - b)) eqn:Hzone; [exists 0; split; [reflexivity|lra]|].
  apply Q_ltb_ge in Hzone.
  assert (Hbpos : 0 < b).
  { destruct (Qlt_le_dec 0 b) as [Hpos|Hneg]; [exact Hpos|].
    exfalso. apply Hb. apply Qle_antisym; lra. }
  set (t := (localY / h - (1 - b)) / b).
  assert (Ht : 0 <= t <= 1).
  { split; [apply Qle_shift_div_l|apply Qle_shift_div_r]; lra. }
  eexists. split; [reflexivity|].
  destruct (transition_easing transition) as [e|].
  - pose proof (easing_curve_range e t Ht) as He. destruct e; exact He.
  - exact Ht.
Qed.

End ExactFacts.

Section ExactGenerators.
Local Open Scope Q_scope.

(** [Math.floor(r * n)] is an index below [n] when [r] is in [0, 1). *)
Lemma floor_of_scaled_draw (r : Q) (n : nat) :
  0 <= r < 1 -> (0 < n)%nat ->
  (0 <= Qfloor (r * of_nat n) < Z.of_nat n)%Z.
Proof.
  intros [H0 H1] Hn. unfold of_nat. cbn [of_Q exact_number].
  assert (Hpos : 0 < inject_Z (Z.of_nat n)).
  { change 0 with (inject_Z 0). rewrite <- Zlt_Qlt. lia. }
  split.
  - change 0%Z with (Qfloor 0). apply Qfloor_resp_le. nra.
  - rewrite Zlt_Qlt. apply Qle_lt_trans with (r * inject_Z (Z.of_nat n)).
    + apply Qfloor_le.
    + nra.
Qed.

(** In exact arithmetic, on a draw within [0, 1), the colour is one of the
    palette. *)
Lemma generateParticipantColor_in_palette (w : World Q) :
  unit_draws 1 w ->
  exists c : string, fst (generateParticipantColor w) = Some c /\ In c colors.
Proof.
  intros H. unfold generateParticipantColor, bind, Math_random, ret. cbn [fst].
  cbn [Math_floor exact_number mul]. unfold Array_get.
  pose proof (floor_of_scaled_draw (random_tape w 0) (List.length colors)
                (H 0%nat ltac:(lia)) ltac:(simpl; lia)) as [Hlo Hhi].
  cbn [of_Q exact_number mul] in Hlo, Hhi.
  destruct (Z.ltb_spec (Qfloor (random_tape w 0 * of_nat (List.length colors))) 0); [lia|].
  destruct (nth_error colors (Z.to_nat (Qfloor (random_tape w 0 * of_nat (List.length colors)))))
    as [c|] eqn:E.
  - exists c. split; [reflexivity|]. eapply nth_error_In. exact E.
  - apply nth_error_None in E. simpl in E, Hhi. lia.
Qed.

Lemma String_length_append (s1 s2 : string) :
  String.length (s1 ++ s2)%string = (String.length s1 + String.length s2)%nat.
Proof.
  induction s1 as [|c s1 IH]; simpl; [reflexivity|]. now rewrite IH.
Qed.

Lemma String_get_None (s : string) :
  forall n : nat, String.get n s = None -> (String.length s <= n)%nat.
Proof.
  induction s as [|c s IH]; intros [|n] H; simpl in *; try lia; try discriminate.
  apply IH in H. lia.
Qed.

Lemma sessionCode_loop_length (n : nat) :
  forall (code : string) (w : World Q),
    unit_draws n w ->
    String.length (fst (sessionCode_loop n code w)) = (String.length code + n)%nat.
Proof.
  induction n as [|n IH]; intros code w H.
  - cbn. lia.
  - cbn [sessionCode_loop]. unfold bind, Math_random.
    rewrite IH.
    + rewrite String_length_append.
      pose proof (floor_of_scaled_draw (random_tape w 0) (String.length chars)
                    (H 0%nat ltac:(lia)) ltac:(simpl; lia)) as [Hlo Hhi].
      unfold String_at. cbn [Math_floor exact_number mul] in *.
      cbn [of_Q exact_number mul] in Hlo, Hhi.
      destruct (Z.ltb_spec (Qfloor (random_tape w 0 * of_nat (String.length chars))) 0); [lia|].
      destruct (String.get (Z.to_nat (Qfloor (random_tape w 0 * of_nat (String.length chars)))) chars)
        as [c|] eqn:E.
      * cbn. lia.
      * apply String_get_None in E. simpl in E, Hhi. lia.
    + intros k Hk. cbn [random_tape]. apply H. lia.
Qed.
(** In exact arithmetic, on draws within [0, 1), the session code has six
    characters. *)
Lemma generateSessionCode_length (w : World Q) :
  unit_draws 6 w -> String.length (fst (generateSessionCode w)) = 6%nat.
Proof.
  intros H. unfold generateSessionCode. now rewrite sessionCode_loop_length.
Qed.

End ExactGenerators.

(** ** The functions at work *)

(** *** The expectations of [stack.test.ts], on binary64 *)

Example test_total_height :
  totalHeight
    (createCubeStack "test-stack"
       [ createStackLayer "l1" testCube (Some bottom) (Some (float_of_Q 1));
         createStackLayer "l2" testCube (Some middle) (Some (float_of_Q 2));
         createStackLayer "l3" testCube (Some top) (Some (float_of_Q 1.5)) ]
       None "2024-01-01T00:00:00.000Z")
  = float_of_Q 4.5.
Proof. vm_compute. reflexivity. Qed.

Example test_layer_positions :
  map layer_position
    (stack_layers
       (createCubeStack "test-stack"
          [ createStackLayer "l1" testCube (Some middle) (Some (float_of_Q 1));
            createStackLayer "l2" testCube (Some middle) (Some (float_of_Q 1));
            createStackLayer "l3" testCube (Some middle) (Some (float_of_Q 1)) ]
          None "2024-01-01T00:00:00.000Z"))
  = [bottom; middle; top].
Proof. reflexivity. Qed.

Example test_total_weight :
  chain (physics
           (createCubeStack "test-stack"
              [ createStackLayer "l1" (withDensity 3 testCube) (Some bottom) (Some (float_of_Q 1));
                createStackLayer "l2" (withDensity 2 testCube) (Some top) (Some (float_of_Q 1)) ]
              None "2024-01-01T00:00:00.000Z"))
        totalWeight
  = Some (float_of_Q 5).
Proof. vm_compute. reflexivity. Qed.

Example test_blend_before_transition_zone :
  getLayerBlendFactor (blendStack 1 0.2 linear) 0 (float_of_Q 0.5) = Some (float_of_Q 0).
Proof. vm_compute. reflexivity. Qed.

Example test_blend_in_transition_zone :
  exists v : float,
    getLayerBlendFactor (blendStack 1 0.2 linear) 0 (float_of_Q 0.9) = Some v /\
    ltb (of_Q 0) v = true /\ ltb v (of_Q 1) = true.
Proof. eexists. split; [vm_compute; reflexivity|]. split; vm_compute; reflexivity. Qed.

Example test_blend_top_layer :
  getLayerBlendFactor (blendStack 1 0.2 linear) 1 (float_of_Q 0.9) = Some (float_of_Q 0).
Proof. vm_compute. reflexivity. Qed.

(** *** The expectations of the other test suites, on binary64 *)

Example test_uniforms_from_empty_config :
  exists u : Uniforms float,
    createEnergyUniforms (redConfig None) noOptions = Some u /\
    get_entry u "uTime" = Some (UNumber (float_of_Q 0)) /\
    get_entry u "uCoeffCountR" = Some (UNumber (float_of_Q 0)) /\
    get_entry u "uCoeffCountA" = Some (UNumber (float_of_Q 0)).
Proof. eexists. split; [reflexivity|]. repeat split; vm_compute; reflexivity. Qed.

Example test_uniforms_cap_at_eight :
  exists (u : Uniforms float) (rows : list (list float)),
    createEnergyUniforms (redConfig (Some tenCoefficients)) noOptions = Some u /\
    get_entry u "uCoeffCountR" = Some (UNumber (float_of_Q 8)) /\
    get_entry u "uCoeffR" = Some (UMatrix rows) /\
    List.length rows = 8 /\
    nth_error rows 7 = Some [float_of_Q 8; float_of_Q 0; float_of_Q 1; float_of_Q 0].
Proof.
  eexists. eexists. split; [vm_compute; reflexivity|].
  repeat split; vm_compute; reflexivity.
Qed.

Example test_session_round_trip :
  Map_size (participants (deserializeSession (serializeSession (@testSession float _)))) = 1 /\
  Map_get (participants (deserializeSession (serializeSession (@testSession float _)))) "p1"
  = Some testParticipant /\
  Map_size (cubes (deserializeSession (serializeSession (@testSession float _)))) = 0.
Proof. repeat split. Qed.

(** *** The properties at concrete inputs *)

(** C2 at a concrete input: the test "should handle smooth easing" (blend
    height 0.4, at 0.8) is an instance of the easing theorem on binary64. *)
Lemma getLayerBlendFactor_easing_smooth_test :
  getLayerBlendFactor (blendStack 1 0.4 smooth) 0 (float_of_Q 0.8)
  = Some (easing_curve smooth
            ((float_of_Q 0.8 - (of_Q 1 - of_Q 0.4)) / of_Q 0.4)%js).
Proof.
  refine (proj2 (getLayerBlendFactor_easing
                   (blendStack 1 0.4 smooth) 0
                   (positionLayer [blendLayer 1 0.4 smooth;
                                   createStackLayer "l2" testCube (Some top) (Some (of_Q 1))]
                                  (blendLayer 1 0.4 smooth) 0)
                   {| transition_type := transition_blend;
                      transition_blendHeight := Some (of_Q 0.4);
                      transition_easing := Some smooth;
                      transition_blendNoise := None;
                      transition_blendGradients := None |}
                   (float_of_Q 0.8) _ _ _ _) _ smooth _).
  - reflexivity.
  - simpl. lia.
  - reflexivity.
  - vm_compute. reflexivity.
  - vm_compute. reflexivity.
  - reflexivity.
Defined.

(** C4, refuted as stated. Two successive calls of each generator return
    different values: the second call reads another draw and a later clock. *)
Lemma generators_not_deterministic :
  ~ deterministic (@generateParticipantColor float _) /\
  ~ deterministic (@generateSessionCode float _) /\
  (forall Number_toString36 : float -> string,
      ~ deterministic (@generateActionId float Number_toString36)).
Proof.
  split; [|split].
  - intros H. specialize (H two_calls (snd (generateParticipantColor two_calls))).
    vm_compute in H. discriminate H.
  - intros H. specialize (H two_calls (snd (generateSessionCode two_calls))).
    vm_compute in H. discriminate H.
  - intros ts H.
    specialize (H two_calls (snd (generateActionId ts two_calls))).
    vm_compute in H. discriminate H.
Qed.

(** What the two calls return. *)
Example two_calls_colors :
  fst (generateParticipantColor two_calls) = Some "#FF6B6B" /\
  fst (generateParticipantColor (snd (generateParticipantColor two_calls))) = Some "#85C1E9".
Proof. split; vm_compute; reflexivity. Qed.

Example two_calls_codes :
  fst (generateSessionCode two_calls) = "B8S9AM" /\
  fst (generateSessionCode (snd (generateSessionCode two_calls))) = "YGVPE3".
Proof. split; vm_compute; reflexivity. Qed.

(** C10, where the code leaves the documented range [0, 1] at a [localY]
    within [0, 1].

    - The lower layer is 0.5 high with a linear transition of blend height
      0.2; at [localY = 1] the function returns [(1/0.5 - 0.8)/0.2], which is
      above 5.9 on binary64 and is 6 in exact arithmetic.
    - The lower layer is 1 high with blend height 0 (a sharp transition); at
      [localY = 1] the function returns [(1 - 1)/0], which is NaN on
      binary64. *)
Theorem getLayerBlendFactor_above_one :
  (exists v : float,
      getLayerBlendFactor (blendStack 0.5 0.2 linear) 0 (of_Q 1) = Some v /\
      ltb (of_Q 5.9) v = true) /\
  (exists q : Q,
      getLayerBlendFactor (blendStack 0.5 0.2 linear) 0 (of_Q 1) = Some q /\
      Qeq q 6) /\
  (exists v : float,
      getLayerBlendFactor (blendStack 1 0 linear) 0 (of_Q 1) = Some v /\
      PrimFloat.is_nan v = true).
Proof.
  split; [|split].
  - eexists. split; [vm_compute; reflexivity|]. vm_compute. reflexivity.
  - eexists. split; [vm_compute; reflexivity|]. reflexivity.
  - eexists. split; [vm_compute; reflexivity|]. vm_compute. reflexivity.
Qed.

(** * Further properties of the code *)

(** ** Where the layers of a stack are drawn *)

(** ** Layer positions *)

Section PositionFacts.
Context {num : Type} {N : Number num}.

Lemma sum_over_snoc (f : StackLayer num -> num) (layers : list (StackLayer num))
    (layer : StackLayer num) :
  sum_over f (layers ++ [layer]) = (sum_over f layers + f layer)%js.
Proof.
  unfold sum_over. now rewrite fold_left_app.
Qed.

Lemma firstn_succ_nth {A : Type} (l : list A) (i : nat) (x : A) :
  nth_error l i = Some x -> firstn (S i) l = firstn i l ++ [x].
Proof.
  revert i. induction l as [|y l IH]; intros [|i] H; simpl in *; try discriminate.
  - now injection H as ->.
  - now rewrite (IH i H).
Qed.

(** The loop of [getLayerYPosition] adds up the heights below the layer, and
    throws as soon as it runs past the last layer. *)
Lemma addLayerHeight_loop (layers : list (StackLayer num)) (k : nat) :
  fold_left (addLayerHeight layers) (seq 0 k) (Some (of_Q 0))
  = if Nat.leb k (List.length layers)
    then Some (sum_over height_of (firstn k layers))
    else None.
Proof.
  induction k as [|k IH].
  - reflexivity.
  - rewrite seq_S, fold_left_app, IH. cbn [fold_left Nat.add].
    destruct (Nat.leb_spec k (List.length layers)) as [Hk|Hk].
    + destruct (nth_error layers k) as [layer|] eqn:E.
      * assert (Hlt : k < List.length layers) by (apply nth_error_Some; congruence).
        destruct (Nat.leb_spec (S k) (List.length layers)); [|lia].
        cbn [addLayerHeight]. rewrite E.
        rewrite (firstn_succ_nth _ _ _ E), sum_over_snoc. reflexivity.
      * pose proof E as Hge. apply nth_error_None in Hge.
        destruct (Nat.leb_spec (S k) (List.length layers)); [lia|].
        cbn [addLayerHeight]. now rewrite E.
    + destruct (Nat.leb_spec (S k) (List.length layers)); [lia|]. reflexivity.
Qed.

(** X1. [getLayerYPosition] returns the heights of the layers below plus
    half the layer's own height when the index is that of a layer, and throws
    (a [TypeError]) when the index is past the last layer. *)
Theorem getLayerYPosition_spec :
  forall (stack : CubeStackConfig num) (layerIndex : nat),
    (forall layer : StackLayer num,
        nth_error (stack_layers stack) layerIndex = Some layer ->
        getLayerYPosition stack layerIndex
        = Some (sum_over height_of (firstn layerIndex (stack_layers stack))
                + height_of layer / of_Q 2)%js) /\
    (List.length (stack_layers stack) <= layerIndex ->
     getLayerYPosition stack layerIndex = None).
Proof.
  intros stack layerIndex. unfold getLayerYPosition. rewrite addLayerHeight_loop. split.
  - intros layer E.
    assert (Hlt : layerIndex < List.length (stack_layers stack))
      by (apply nth_error_Some; congruence).
    destruct (Nat.leb_spec layerIndex (List.length (stack_layers stack))); [|lia].
    now rewrite E.
  - intros Hge. apply nth_error_None in Hge. rewrite Hge.
    now destruct (Nat.leb layerIndex (List.length (stack_layers stack))).
Qed.

End PositionFacts.

Section PositionExact.
Local Open Scope Q_scope.

Lemma two_halves (x : Q) : x / 2 + x / 2 == x.
Proof. field. Qed.

Lemma getLayerYPosition_in_range (stack : CubeStackConfig Q) (i : nat) (layer : StackLayer Q) :
  nth_error (stack_layers stack) i = Some layer ->
  getLayerYPosition stack i
  = Some (sum_over height_of (firstn i (stack_layers stack)) + height_of layer / 2).
Proof.
  intros E. unfold getLayerYPosition. rewrite addLayerHeight_loop.
  assert (Hlt : (i < List.length (stack_layers stack))%nat)
    by (apply nth_error_Some; congruence).
  destruct (Nat.leb_spec i (List.length (stack_layers stack))); [|lia].
  now rewrite E.
Qed.


(** Partial sums of heights that are not negative do not decrease. *)
Lemma sum_over_firstn_le (layers : list (StackLayer Q)) (i j : nat) :
  Forall (fun layer => 0 < height_of layer) layers ->
  (i <= j)%nat ->
  sum_over height_of (firstn i layers) <= sum_over height_of (firstn j layers).
Proof.
  intros Hpos Hij. induction Hij as [|j Hij IH]; [lra|].
  destruct (nth_error layers j) as [layer|] eqn:E.
  - rewrite (firstn_succ_nth _ _ _ E), sum_over_snoc. cbn [add exact_number].
    assert (0 < height_of layer).
    { rewrite Forall_forall in Hpos. apply Hpos. eapply nth_error_In. exact E. }
    lra.
  - apply nth_error_None in E.
    rewrite (firstn_all2 (n := S j)) by lia.
    rewrite (firstn_all2 (n := j)) in IH by lia. exact IH.
Qed.


End PositionExact.

(** ** Stacks built by [createCubeStack] *)

Section RestackFacts.
Context {num : Type} {N : Number num}.

Lemma Array_map_from_fixed {A : Type} (f g : A -> nat -> A) :
  (forall x i, g (f x i) i = f x i) ->
  forall (arr : list A) (i : nat),
    Array_map_from g i (Array_map_from f i arr) = Array_map_from f i arr.
Proof.
  intros Hfix arr. induction arr as [|x rest IH]; intros i; simpl; [reflexivity|].
  now rewrite Hfix, IH.
Qed.

Lemma firstn_Array_map_from {A B : Type} (f : A -> nat -> B) (arr : list A) :
  forall k i : nat, firstn k (Array_map_from f i arr) = Array_map_from f i (firstn k arr).
Proof.
  induction arr as [|x rest IH]; intros [|k] i; simpl; try reflexivity.
  now rewrite IH.
Qed.

Lemma positionLayer_again (layers layers' : list (StackLayer num)) (layer : StackLayer num)
    (i : nat) :
  List.length layers' = List.length layers ->
  positionLayer layers' (positionLayer layers layer i) i = positionLayer layers layer i.
Proof.
  intros Hlen. unfold positionLayer. rewrite Hlen.
  cbn [layer_id layer_name layer_cubeConfig layer_height layer_transitionToNext].
  destruct (Nat.eqb (List.length layers) 1); [reflexivity|].
  destruct (Nat.eqb i 0); [reflexivity|].
  destruct (Nat.eqb i (List.length layers - 1)); reflexivity.
Qed.

(** X4. Building a stack from the layers of a built stack changes nothing:
    positions, transitions, total height and total weight are already what
    [createCubeStack] would make them. *)
Theorem createCubeStack_idempotent :
  forall (id : string) (layers : list (StackLayer num)) (prompt : option string)
         (created : string),
    createCubeStack id (stack_layers (createCubeStack id layers prompt created)) prompt created
    = createCubeStack id layers prompt created.
Proof.
  intros id layers prompt created.
  assert (Hfix : Array_map (positionLayer (Array_map (positionLayer layers) layers))
                           (Array_map (positionLayer layers) layers)
                 = Array_map (positionLayer layers) layers).
  { unfold Array_map. apply Array_map_from_fixed. intros x i.
    apply positionLayer_again. apply Array_map_from_length. }
  unfold createCubeStack at 1. cbn [stack_layers createCubeStack]. rewrite Hfix. reflexivity.
Qed.

End RestackFacts.

Section SpanExact.
Local Open Scope Q_scope.

Lemma sum_over_positioned (layers rest : list (StackLayer Q)) (i : nat) :
  sum_over height_of (Array_map_from (positionLayer layers) i rest) = sum_over height_of rest.
Proof.
  unfold sum_over. apply fold_left_Array_map_from. intros c x k. reflexivity.
Qed.


End SpanExact.

(** ** The blend factor *)

Section BlendUnfold.
Context {num : Type} {N : Number num}.

(** [getLayerBlendFactor] on a layer that is not the last and has a
    transition. *)
Lemma getLayerBlendFactor_blending (stack : CubeStackConfig num) (layerIndex : nat)
    (layer : StackLayer num) (transition : StackTransition num) (localY : num) :
  nth_error (stack_layers stack) layerIndex = Some layer ->
  S layerIndex < List.length (stack_layers stack) ->
  layer_transitionToNext layer = Some transition ->
  getLayerBlendFactor stack layerIndex localY
  = Some (if (localY / height_of layer
              <? of_Q 1 - (transition_blendHeight transition ?? of_Q 0.2))%js
          then of_Q 0
          else easing_or_linear (transition_easing transition)
                 ((localY / height_of layer
                   - (of_Q 1 - (transition_blendHeight transition ?? of_Q 0.2)))
                  / (transition_blendHeight transition ?? of_Q 0.2))%js).
Proof.
  intros Hnth Hlast Htr. unfold getLayerBlendFactor.
  rewrite Hnth, Htr, (not_last_layer _ _ Hlast). unfold height_of.
  destruct (_ <? _)%js; [reflexivity|].
  destruct (transition_easing transition) as [[]|]; reflexivity.
Qed.


End BlendUnfold.

Section BlendExact.
Local Open Scope Q_scope.

Lemma easing_or_linear_proper (e : option Easing) (t t' : Q) :
  t == t' -> easing_or_linear e t == easing_or_linear e t'.
Proof.
  intros H. destruct e as [[]|]; cbn; rewrite H; reflexivity.
Qed.

Lemma easing_or_linear_ends (e : option Easing) :
  easing_or_linear e 0 == 0 /\ easing_or_linear e 1 == 1.
Proof.
  destruct e as [[]|]; cbn; split; lra.
Qed.

Lemma easing_or_linear_range (e : option Easing) (t : Q) :
  0 <= t <= 1 -> 0 <= easing_or_linear e t <= 1.
Proof.
  intros H. destruct e as [e|]; [now apply easing_curve_range|exact H].
Qed.

(** Every curve rises on [0, 1]. *)
Lemma easing_or_linear_monotone (e : option Easing) (t1 t2 : Q) :
  0 <= t1 -> t1 <= t2 -> t2 <= 1 ->
  easing_or_linear e t1 <= easing_or_linear e t2.
Proof.
  intros H0 H12 H1.
  assert (Hd : 0 <= t2 - t1) by lra.
  pose proof (Qmult_le_0_compat _ _ Hd
                (Qmult_le_0_compat t1 (1 - t1) ltac:(lra) ltac:(lra))) as P1.
  pose proof (Qmult_le_0_compat _ _ Hd
                (Qmult_le_0_compat t2 (1 - t2) ltac:(lra) ltac:(lra))) as P2.
  pose proof (Qmult_le_0_compat _ _ Hd
                (Qmult_le_0_compat t1 (1 - t2) ltac:(lra) ltac:(lra))) as P3.
  pose proof (Qmult_le_0_compat _ _ Hd
                (Qmult_le_0_compat t2 (1 - t1) ltac:(lra) ltac:(lra))) as P4.
  pose proof (Qmult_le_0_compat _ _ Hd H0) as P5.
  pose proof (Qmult_le_0_compat (t2 - t1) t2 Hd ltac:(lra)) as P6.
  destruct e as [[]|]; cbn; nra.
Qed.

Lemma Qdiv_le_compat (x y c : Q) : 0 < c -> x <= y -> x / c <= y / c.
Proof.
  intros Hc Hxy. apply Qle_shift_div_l; [exact Hc|].
  setoid_replace (x / c * c) with x by (field; lra). exact Hxy.
Qed.




End BlendExact.

(** ** Gradient stacks *)

Section GradientFacts.
Context {num : Type} {N : Number num}.
Variable Number_toDecimal : num -> string.

(** The positions [createCubeStack] assigns, by the number of layers. *)
Lemma Array_map_positions (layers : list (StackLayer num)) :
  map layer_position (Array_map (positionLayer layers) layers)
  = expected_positions (List.length layers).
Proof.
  unfold Array_map. destruct layers as [|x [|y rest]]; try reflexivity.
  cbn [Array_map_from map].
  rewrite (positionLayer_upper (x :: y :: rest) (List.length rest)); simpl; try lia;
    try reflexivity.
  destruct rest; simpl; rewrite ?Nat.sub_0_r; reflexivity.
Qed.

(** X10. A gradient stack of [n] layers (3 when no count is given) has [n]
    layers named [layer-0 .. layer-(n-1)], each 1 high and of the requested
    material (stone when none is given), positioned bottom, middle .., top. *)
Theorem createGradientStack_layers :
  forall (id : string) (baseColor topColor : Color3 num) (layerCount : option nat)
         (material : option MaterialType) (created : string),
    let stack :=
      createGradientStack Number_toDecimal id baseColor topColor layerCount material created in
    List.length (stack_layers stack) = layerCount ?? 3 /\
    map layer_position (stack_layers stack) = expected_positions (layerCount ?? 3) /\
    map layer_id (stack_layers stack)
    = map (fun i => ("layer-" ++ Number_toString (Z.of_nat i))%string) (seq 0 (layerCount ?? 3)) /\
    Forall (fun layer =>
              layer_height layer = Some (of_Q 1) /\
              chain (cube_physics (layer_cubeConfig layer)) physics_material
              = Some (material ?? stone))
           (stack_layers stack).
Proof.
  intros id baseColor topColor layerCount material created stack.
  unfold stack, createGradientStack, createCubeStack. cbn [stack_layers].
  set (n := layerCount ?? 3). set (m := material ?? stone).
  set (layers := map (gradientLayer id baseColor topColor n m) (seq 0 n)).
  assert (Hlen : List.length layers = n) by (unfold layers; now rewrite length_map, length_seq).
  split; [|split; [|split]].
  - unfold Array_map. now rewrite Array_map_from_length.
  - now rewrite Array_map_positions, Hlen.
  - unfold Array_map.
    assert (Hid : forall (l : list (StackLayer num)) i,
               map layer_id (Array_map_from (positionLayer layers) i l) = map layer_id l).
    { induction l as [|x l IH]; intros i; simpl; [reflexivity|]. now rewrite IH. }
    rewrite Hid. unfold layers. rewrite map_map. apply map_ext. intros i.
    unfold gradientLayer. destruct baseColor as [[? ?] ?], topColor as [[? ?] ?]. reflexivity.
  - apply Forall_forall. intros layer Hin.
    apply In_nth_error in Hin. destruct Hin as [k Hk].
    unfold Array_map in Hk. rewrite Array_map_from_nth in Hk.
    destruct (nth_error layers k) as [x|] eqn:E; [|discriminate].
    injection Hk as <-. unfold layers in E. apply nth_error_In in E.
    apply in_map_iff in E. destruct E as [i [<- _]].
    unfold gradientLayer. destruct baseColor as [[? ?] ?], topColor as [[? ?] ?].
    split; reflexivity.
Qed.

End GradientFacts.

Section GradientExact.
Local Open Scope Q_scope.
Variable Number_toDecimal : Q -> string.

Lemma of_nat_S (k : nat) : @of_nat Q _ (S k) == @of_nat Q _ k + 1.
Proof.
  unfold of_nat. cbn [of_Q exact_number].
  rewrite Nat2Z.inj_succ. unfold Z.succ. rewrite inject_Z_plus. reflexivity.
Qed.

Lemma of_nat_lt (i j : nat) : (i < j)%nat -> @of_nat Q _ i < @of_nat Q _ j.
Proof.
  intros H. unfold of_nat. cbn [of_Q exact_number]. rewrite <- Zlt_Qlt. lia.
Qed.

Lemma of_nat_le (i j : nat) : (i <= j)%nat -> @of_nat Q _ i <= @of_nat Q _ j.
Proof.
  intros H. unfold of_nat. cbn [of_Q exact_number]. rewrite <- Zle_Qle. lia.
Qed.

Lemma of_nat_1 : @of_nat Q _ 1 == 1.
Proof. reflexivity. Qed.

(** The interpolation parameter of a stack of two layers or more. *)
Lemma gradientT_many (n i : nat) :
  (2 <= n)%nat -> @gradientT Q _ n i = @of_nat Q _ i / (@of_nat Q _ n - 1).
Proof.
  intros Hn. unfold gradientT.
  destruct (Nat.eqb_spec n 1); [lia|]. reflexivity.
Qed.

Lemma gradient_denominator (n : nat) : (2 <= n)%nat -> 0 < @of_nat Q _ n - 1.
Proof.
  intros Hn. pose proof (of_nat_le 2 n Hn) as H.
  change (@of_nat Q _ 2) with 2 in H. lra.
Qed.

(** The parameter runs from 0 at the first layer to 1 at the last one. *)
Lemma gradientT_range (n i : nat) :
  (i < n)%nat -> 0 <= @gradientT Q _ n i <= 1.
Proof.
  intros Hi. unfold gradientT. destruct (Nat.eqb_spec n 1) as [->|Hn].
  - cbn. lra.
  - assert (H2 : (2 <= n)%nat) by lia.
    pose proof (gradient_denominator n H2) as Hd.
    cbn [div sub of_Q exact_number]. split.
    + apply Qle_shift_div_l; [exact Hd|]. pose proof (of_nat_le 0 i ltac:(lia)) as H0.
      change (@of_nat Q _ 0) with 0 in H0. lra.
    + apply Qle_shift_div_r; [exact Hd|].
      pose proof (of_nat_le (S i) n ltac:(lia)) as H1. rewrite (of_nat_S i) in H1. lra.
Qed.

Lemma gradientT_increasing (n i j : nat) :
  (i < j)%nat -> (j < n)%nat -> @gradientT Q _ n i < @gradientT Q _ n j.
Proof.
  intros Hij Hj. rewrite !gradientT_many by lia.
  pose proof (gradient_denominator n ltac:(lia)) as Hd.
  pose proof (of_nat_lt i j Hij) as Hlt.
  unfold Qdiv. apply Qmult_lt_compat_r; [|exact Hlt].
  apply Qinv_lt_0_compat. exact Hd.
Qed.

(** The layers of a gradient stack, by index. *)
Lemma createGradientStack_nth (id : string) (baseColor topColor : Color3 Q)
    (layerCount : option nat) (material : option MaterialType) (created : string) (i : nat) :
  (i < layerCount ?? 3%nat)%nat ->
  exists layer : StackLayer Q,
    nth_error (stack_layers (createGradientStack Number_toDecimal id baseColor topColor
                               layerCount material created)) i = Some layer /\
    layer_cubeConfig layer
    = layer_cubeConfig (gradientLayer id baseColor topColor (layerCount ?? 3%nat)
                          (material ?? stone) i) /\
    layer_height layer = Some 1.
Proof.
  intros Hi. unfold createGradientStack, createCubeStack, Array_map. cbn [stack_layers].
  rewrite Array_map_from_nth.
  rewrite (nth_error_map_seq _ _ _ Hi).
  eexists. split; [reflexivity|].
  unfold gradientLayer. destruct baseColor as [[? ?] ?], topColor as [[? ?] ?].
  split; reflexivity.
Qed.


(** The running totals of the loops of [createCubeStack] over the first [k]
    layers of a gradient stack. *)
Lemma gradient_height_loop (id : string) (baseColor topColor : Color3 Q) (n : nat)
    (material : MaterialType) (k : nat) :
  fold_left (fun sum layer => (sum + (layer_height layer ?? of_Q 1))%js)
            (map (gradientLayer id baseColor topColor n material) (seq 0 k)) 0
  == @of_nat Q _ k.
Proof.
  induction k as [|k IH]; [reflexivity|].
  rewrite seq_S, map_app, fold_left_app. cbn [map fold_left Nat.add].
  setoid_rewrite (of_nat_S k). cbn [add exact_number]. rewrite IH.
  unfold gradientLayer. destruct baseColor as [[? ?] ?], topColor as [[? ?] ?].
  cbn. lra.
Qed.

Lemma gradient_weight_loop (id : string) (baseColor topColor : Color3 Q) (n : nat)
    (material : MaterialType) (k : nat) :
  fold_left (fun sum layer =>
               let density :=
                 chain (cube_physics (layer_cubeConfig layer)) physics_density ?? of_Q 2.5 in
               let height := layer_height layer ?? of_Q 1 in
               (sum + density * height)%js)
            (map (gradientLayer id baseColor topColor n material) (seq 0 k)) 0
  == if Nat.eqb n 1 then 2.25 * @of_nat Q _ k
     else 2.5 * @of_nat Q _ k
          - 0.25 * (@of_nat Q _ k * (@of_nat Q _ k - 1)) / (@of_nat Q _ n - 1).
Proof.
  assert (E : forall k,
             (chain (cube_physics (layer_cubeConfig
                       (gradientLayer id baseColor topColor n material k)))
                    physics_density ?? of_Q 2.5)
             * (layer_height (gradientLayer id baseColor topColor n material k) ?? of_Q 1)
             == 2.5 - @gradientT Q _ n k * 0.5).
  { intros i. unfold gradientLayer. destruct baseColor as [[? ?] ?], topColor as [[? ?] ?].
    cbn [layer_cubeConfig createStackLayer cube_physics physics_density chain nullish
         layer_height of_Q sub mul exact_number]. lra. }
  unfold gradientT in E. destruct (Nat.eqb_spec n 1) as [->|Hn].
  - induction k as [|k IH]; [reflexivity|].
    rewrite seq_S, map_app, fold_left_app. cbn [map fold_left Nat.add].
    cbv zeta. cbn [add mul exact_number] in *. rewrite IH, E.
    setoid_rewrite (of_nat_S k). cbn [of_Q exact_number]. lra.
  - induction k as [|k IH]; [reflexivity|].
    rewrite seq_S, map_app, fold_left_app. cbn [map fold_left Nat.add].
    cbv zeta. cbn [add mul exact_number] in *. rewrite IH, E.
    setoid_rewrite (of_nat_S k). cbn [of_Q div sub exact_number].
    destruct (Nat.eq_dec n 0) as [->|Hn0].
    + change (@of_nat Q _ 0) with 0. field.
    + pose proof (gradient_denominator n ltac:(lia)). field. lra.
Qed.



Lemma firstn_seq_lt (i n a : nat) : (i <= n)%nat -> firstn i (seq a n) = seq a i.
Proof.
  revert n a. induction i as [|i IH]; intros [|n] a H; simpl; try reflexivity; try lia.
  now rewrite IH by lia.
Qed.


End GradientExact.

(** ** Identifiers, codes and colours *)

Section IdFacts.
Context {num : Type} {N : Number num}.

Lemma string_of_uint_digits (d : Decimal.uint) :
  all_digits (DecimalString.NilEmpty.string_of_uint d) = true.
Proof.
  induction d; simpl; auto.
Qed.

Lemma NilZero_string_of_uint_digits (d : Decimal.uint) :
  all_digits (DecimalString.NilZero.string_of_uint d) = true /\
  DecimalString.NilZero.string_of_uint d <> "".
Proof.
  destruct d; split; try apply (string_of_uint_digits (_ d)); try discriminate; reflexivity.
Qed.

(** A run of digits followed by a dash is read off a string in one way. *)
Lemma digits_then_dash (a b x y : string) :
  all_digits a = true -> all_digits b = true ->
  (a ++ String "-" x)%string = (b ++ String "-" y)%string -> a = b /\ x = y.
Proof.
  revert b. induction a as [|c a IH]; intros [|c' b] Ha Hb H; simpl in *.
  - injection H as ->. now split.
  - injection H as <- _. discriminate Hb.
  - injection H as -> _. discriminate Ha.
  - injection H as -> H.
    apply andb_true_iff in Ha. apply andb_true_iff in Hb.
    destruct (IH b (proj2 Ha) (proj2 Hb) H) as [-> ->]. now split.
Qed.

Lemma to_int_not_nil (z : Z) :
  Z.to_int z <> Decimal.Pos Decimal.Nil /\ Z.to_int z <> Decimal.Neg Decimal.Nil.
Proof.
  destruct z; simpl; split; try discriminate; intros [= H];
    now apply DecimalPos.Unsigned.to_uint_nonnil in H.
Qed.

(** [`${n}`] starts with a digit or a minus sign. *)
Lemma Number_toString_head (z : Z) :
  exists (c : ascii) (rest : string),
    Number_toString z = String c rest /\ (is_digit c = true \/ c = "-"%char).
Proof.
  unfold Number_toString. destruct (Z.to_int z) as [d|d]; simpl.
  - destruct (NilZero_string_of_uint_digits d) as [Hd Hne].
    destruct (DecimalString.NilZero.string_of_uint d) as [|c rest]; [congruence|].
    exists c, rest. split; [reflexivity|]. left. simpl in Hd.
    now apply andb_true_iff in Hd.
  - eexists. eexists. split; [reflexivity|]. now right.
Qed.

(** [`${n}-${x}`] tells [n]: two such strings that are equal have the same
    number before the dash. *)
Lemma Number_toString_dash_inj (a b : Z) (x y : string) :
  (Number_toString a ++ String "-" x)%string = (Number_toString b ++ String "-" y)%string ->
  a = b /\ x = y.
Proof.
  unfold Number_toString. intros H.
  assert (Hs : DecimalString.NilZero.string_of_int (Z.to_int a)
               = DecimalString.NilZero.string_of_int (Z.to_int b) /\ x = y).
  { destruct (Z.to_int a) as [da|da], (Z.to_int b) as [db|db]; simpl in *.
    - apply digits_then_dash in H; try apply NilZero_string_of_uint_digits. exact H.
    - destruct (NilZero_string_of_uint_digits da) as [Hd Hne].
      destruct (DecimalString.NilZero.string_of_uint da) as [|c rest]; [congruence|].
      simpl in H, Hd. injection H as -> _. discriminate Hd.
    - destruct (NilZero_string_of_uint_digits db) as [Hd Hne].
      destruct (DecimalString.NilZero.string_of_uint db) as [|c rest]; [congruence|].
      simpl in H, Hd. injection H as <- _. discriminate Hd.
    - injection H as H.
      apply digits_then_dash in H; try apply NilZero_string_of_uint_digits.
      destruct H as [-> ->]. now split. }
  destruct Hs as [Hs ->]. split; [|reflexivity].
  apply DecimalZ.to_int_inj.
  assert (Hi : Some (Z.to_int a) = Some (Z.to_int b)).
  { rewrite <- (DecimalString.NilZero.isi (Z.to_int a)) by apply to_int_not_nil.
    rewrite <- (DecimalString.NilZero.isi (Z.to_int b)) by apply to_int_not_nil.
    now rewrite Hs. }
  now injection Hi.
Qed.

Variable Number_toString36 : num -> string.

(** X15. An action id, a participant id and a session id are never the same
    string, whatever the clock and the draws: a participant id starts with
    [p], a session id with [s], an action id with a digit or a minus sign. *)
Theorem ids_of_different_kinds_differ :
  forall w1 w2 w3 : World num,
    fst (generateParticipantId Number_toString36 w1)
    <> fst (generateSessionId Number_toString36 w2) /\
    fst (generateActionId Number_toString36 w3)
    <> fst (generateParticipantId Number_toString36 w1) /\
    fst (generateActionId Number_toString36 w3)
    <> fst (generateSessionId Number_toString36 w2).
Proof.
  intros w1 w2 w3.
  unfold generateParticipantId, generateSessionId, generateActionId, bind, Date_now,
    Math_random, ret. cbn [fst].
  destruct (Number_toString_head (clock_tape w3 0)) as [c [rest [E Hc]]]. rewrite E.
  repeat split; simpl; intros H; try discriminate H;
    injection H as -> _; destruct Hc as [Hc|Hc]; discriminate Hc.
Qed.

(** X16. Two ids of one kind made at different clock readings differ,
    whatever the draws. *)
Theorem ids_of_different_times_differ :
  forall w1 w2 : World num,
    clock_tape w1 0 <> clock_tape w2 0 ->
    fst (generateActionId Number_toString36 w1)
    <> fst (generateActionId Number_toString36 w2) /\
    fst (generateParticipantId Number_toString36 w1)
    <> fst (generateParticipantId Number_toString36 w2) /\
    fst (generateSessionId Number_toString36 w1)
    <> fst (generateSessionId Number_toString36 w2).
Proof.
  intros w1 w2 Hclock.
  unfold generateParticipantId, generateSessionId, generateActionId, bind, Date_now,
    Math_random, ret. cbn [fst random_tape clock_tape].
  repeat split; intros H; apply Hclock; simpl in H; try injection H as H;
    now apply Number_toString_dash_inj in H.
Qed.

End IdFacts.

Section CodeExact.
Local Open Scope Q_scope.

Lemma list_ascii_of_string_app (s1 s2 : string) :
  list_ascii_of_string (s1 ++ s2)%string
  = (list_ascii_of_string s1 ++ list_ascii_of_string s2)%list.
Proof.
  induction s1 as [|c s1 IH]; simpl; [reflexivity|]. now rewrite IH.
Qed.

Lemma String_get_In (s : string) :
  forall (n : nat) (c : ascii), String.get n s = Some c -> In c (list_ascii_of_string s).
Proof.
  induction s as [|a s IH]; intros [|n] c H; simpl in *; try discriminate.
  - left. congruence.
  - right. eauto.
Qed.

(** The loop appends one character of [chars] per round. *)
Lemma sessionCode_loop_alphabet (n : nat) :
  forall (code : string) (w : World Q),
    unit_draws n w ->
    exists tail : string,
      fst (sessionCode_loop n code w) = (code ++ tail)%string /\
      String.length tail = n /\ drawn_from chars tail.
Proof.
  induction n as [|n IH]; intros code w H.
  - exists ""%string. cbn. split; [|split; [reflexivity|intros c []]].
    induction code as [|a code IHc]; simpl; congruence.
  - cbn [sessionCode_loop]. unfold bind, Math_random.
    pose proof (floor_of_scaled_draw (random_tape w 0) (String.length chars)
                  (H 0%nat ltac:(lia)) ltac:(simpl; lia)) as [Hlo Hhi].
    set (w' := {| random_tape := fun k => random_tape w (S k); clock_tape := clock_tape w |}).
    assert (H' : unit_draws n w') by (intros k Hk; apply H; lia).
    unfold String_at. cbn [Math_floor exact_number mul] in *.
    destruct (Z.ltb_spec (Qfloor (random_tape w 0 * of_nat (String.length chars))) 0); [lia|].
    destruct (String.get (Z.to_nat (Qfloor (random_tape w 0 * of_nat (String.length chars)))) chars)
      as [c|] eqn:E.
    + destruct (IH (code ++ String_of (Some (String c EmptyString)))%string w' H')
        as [tail [Ht [Hlen Hin]]].
      exists (String c tail). split; [|split].
      * rewrite Ht. cbn [String_of]. clear.
        induction code as [|a code IHc]; simpl; congruence.
      * simpl. now rewrite Hlen.
      * intros a [<-|Ha]; [eapply String_get_In; exact E|now apply Hin].
    + apply String_get_None in E. simpl in E, Hhi. lia.
Qed.


End CodeExact.

Section PaletteExact.
Local Open Scope Q_scope.

(** The draw [i / 10] picks colour [i]. *)
Lemma generateParticipantColor_picks (i : nat) :
  (i < List.length colors)%nat ->
  exists w : World Q,
    unit_draws 1 w /\ fst (generateParticipantColor w) = nth_error colors i.
Proof.
  intros Hi.
  exists {| random_tape := fun _ => inject_Z (Z.of_nat i) / 10; clock_tape := fun _ => 0%Z |}.
  do 10 (destruct i as [|i];
         [split; [intros k _; split; [apply Qle_bool_iff|apply Qlt_alt]; reflexivity
                 |reflexivity]|]).
  simpl in Hi. lia.
Qed.


End PaletteExact.

(** ** Sessions with repeated ids *)

Section LookupFacts.
Context {V : Type}.

Lemma get_entry_set_entry (es : list (string * V)) (k k' : string) (v : V) :
  get_entry (set_entry es k v) k' = if String.eqb k k' then Some v else get_entry es k'.
Proof.
  induction es as [|[k0 v0] rest IH]; simpl; [reflexivity|].
  destruct (String.eqb k0 k) eqn:E; simpl.
  - apply String.eqb_eq in E. subst k0. destruct (String.eqb k k'); reflexivity.
  - rewrite IH. destruct (String.eqb k0 k') eqn:E'; [|reflexivity].
    apply String.eqb_eq in E'. subst k0. now rewrite String.eqb_sym, E.
Qed.

Lemma get_entry_app (es es' : list (string * V)) (k : string) :
  get_entry (es ++ es') k
  = match get_entry es k with Some v => Some v | None => get_entry es' k end.
Proof.
  induction es as [|[k0 v0] rest IH]; simpl; [reflexivity|].
  destruct (String.eqb k0 k); [reflexivity|exact IH].
Qed.

(** Setting entries one after the other: a key is found with the value set
    last. *)
Lemma get_entry_fold (es acc : list (string * V)) (k : string) :
  get_entry (fold_left (fun es' kv => set_entry es' (fst kv) (snd kv)) es acc) k
  = match get_entry (rev es) k with Some v => Some v | None => get_entry acc k end.
Proof.
  revert acc. induction es as [|[k0 v0] rest IH]; intros acc; simpl; [reflexivity|].
  rewrite IH, get_entry_app, get_entry_set_entry. simpl.
  destruct (get_entry (rev rest) k); [reflexivity|].
  destruct (String.eqb k0 k); reflexivity.
Qed.

Lemma Map_get_Map_from (es : list (string * V)) (k : string) :
  Map_get (Map_from es) k = get_entry (rev es) k.
Proof.
  unfold Map_get, Map_from. rewrite Map_entries_fold, get_entry_fold. simpl.
  destruct (get_entry (rev es) k); reflexivity.
Qed.

Lemma Map_from_unique (es : list (string * V)) :
  unique_keys es = true -> Map_entries (Map_from es) = es.
Proof.
  intros H. unfold Map_from. rewrite Map_entries_fold. simpl.
  apply (set_entries_unique es []). exact H.
Qed.

End LookupFacts.

Section SessionMore.
Context {num : Type}.

(** X19. Serialising a deserialised session gives back the serialised form
    exactly when neither of its two entry lists holds an id twice: [new Map]
    keeps one entry per id. *)
Theorem serializeSession_deserializeSession :
  forall serializable : SerializableSession num,
    serializeSession (deserializeSession serializable) = serializable
    <-> unique_keys (serializable_participants serializable) = true /\
        unique_keys (serializable_cubes serializable) = true.
Proof.
  intros serializable. split.
  - intros E. split.
    + apply (f_equal serializable_participants) in E. cbn -[Map_from] in E. rewrite <- E.
      apply Map_unique.
    + apply (f_equal serializable_cubes) in E. cbn -[Map_from] in E. rewrite <- E.
      apply Map_unique.
  - intros [Hp Hc]. destruct serializable as [i c st o ps cs ca ma].
    unfold serializeSession, deserializeSession. cbn -[Map_from] in *.
    now rewrite (Map_from_unique ps Hp), (Map_from_unique cs Hc).
Qed.

(** X20. In a deserialised session a participant or a cube is found under
    its id with the value of the last entry of that id in the serialised
    list, and is not found when the list has no entry of that id. *)
Theorem deserializeSession_lookup :
  forall (serializable : SerializableSession num) (id : string),
    Map_get (participants (deserializeSession serializable)) id
    = get_entry (rev (serializable_participants serializable)) id /\
    Map_get (cubes (deserializeSession serializable)) id
    = get_entry (rev (serializable_cubes serializable)) id.
Proof.
  intros serializable id. unfold deserializeSession. cbn -[Map_from Map_get].
  split; apply Map_get_Map_from.
Qed.

End SessionMore.

(** ** The uniforms the shader declares *)

Section ShapeFacts.
Context {num : Type} {N : Number num}.

Lemma rowAt_length (cs : list (FFTCoefficient num)) (count i : nat) :
  List.length (rowAt cs count i) = 4.
Proof.
  unfold rowAt. destruct (nth_error cs i); [destruct (Nat.ltb i count)|]; reflexivity.
Qed.

(** [channelToUniforms] returns 8 rows of 4 numbers and 8 numbers, whatever
    the channel. *)
Lemma channelToUniforms_shape (channel : option (FFTChannel num)) :
  exists data : ChannelUniforms num,
    channelToUniforms channel = Some data /\
    map (@List.length num) (uniforms_coeffs data) = repeat 4 8 /\
    List.length (uniforms_freqZ data) = 8.
Proof.
  destruct channel as [channel|]; unfold channelToUniforms.
  - pose proof (pushCoefficient_loop (coefficients channel)
                  (Nat.min (List.length (coefficients channel)) 8)
                  (Nat.le_min_l _ _) 8 0) as Hloop.
    cbn [seq map Nat.add] in Hloop. cbn [seq]. rewrite Hloop.
    eexists. split; [reflexivity|].
    cbn [uniforms_coeffs uniforms_freqZ map]. rewrite !rowAt_length.
    split; reflexivity.
  - eexists. split; [reflexivity|]. split; reflexivity.
Qed.

(** X21. Whatever the configuration and the options, [createEnergyUniforms]
    returns the uniforms of [defaultUniforms]: the same 28 names in the same
    order, each of the same kind and size (numbers, vectors of 3 or 4, arrays
    of 8 numbers, arrays of 8 vectors of 4). *)
Theorem createEnergyUniforms_declared :
  forall (config : EnergyCubeConfig num) (options : EnergyUniformOptions num),
  exists u : Uniforms num,
    createEnergyUniforms config options = Some u /\
    declared u = declared defaultUniforms.
Proof.
  intros config options. unfold createEnergyUniforms.
  destruct (channelToUniforms_shape (channelR config)) as [rData [-> [Rc Rz]]].
  destruct (channelToUniforms_shape (channelG config)) as [gData [-> [Gc Gz]]].
  destruct (channelToUniforms_shape (channelB config)) as [bData [-> [Bc Bz]]].
  destruct (channelToUniforms_shape (channelA config)) as [aData [-> [Ac Az]]].
  eexists. split; [reflexivity|].
  unfold declared. cbn [map fst snd shape_of].
  rewrite Rc, Rz, Gc, Gz, Bc, Bz, Ac, Az.
  destruct (gridPosition options ?? (of_Q 0, of_Q 0, of_Q 0)) as [[x y] z].
  reflexivity.
Qed.

End ShapeFacts.

Section PresetFacts.
Context {num : Type} {N : Number num}.
Variable Math_PI : num.

(** X22. The uniforms of a simple energy configuration: the constant term
    is the base colour with alpha 1, each colour channel sends its two
    coefficients and the alpha channel none, whatever the options. *)
Theorem createSimpleEnergyConfig_uniforms :
  forall (baseColor : num * num * num) (options : EnergyUniformOptions num),
  exists u : Uniforms num,
    createEnergyUniforms (createSimpleEnergyConfig Math_PI baseColor) options = Some u /\
    get_entry u "uDCAmplitude" = Some (UVector (vec3 baseColor ++ [of_Q 1])) /\
    get_entry u "uCoeffCountR" = Some (UNumber (of_nat 2)) /\
    get_entry u "uCoeffCountG" = Some (UNumber (of_nat 2)) /\
    get_entry u "uCoeffCountB" = Some (UNumber (of_nat 2)) /\
    get_entry u "uCoeffCountA" = Some (UNumber (of_nat 0)) /\
    get_entry u "uCoeffR"
    = Some (UMatrix ([of_Q 0.2; of_Q 0; of_Q 1; of_Q 0]
                     :: [of_Q 0.1; (Math_PI / of_Q 4)%js; of_Q 0; of_Q 1]
                     :: repeat zero4 6)).
Proof.
  intros [[r g] b] options. eexists. split; [reflexivity|].
  repeat split.
Qed.

End PresetFacts.

(** ** The further properties at concrete inputs *)

Section Instances.
Local Open Scope Q_scope.










(** X16 at two calls a millisecond apart that read the same draw. *)
Lemma ids_of_different_times_differ_a_millisecond_apart :
  fst (generateActionId (fun _ : Q => "0.4fzyo82mvyr") (world_of [0.5] [1730581234567%Z]))
  <> fst (generateActionId (fun _ : Q => "0.4fzyo82mvyr") (world_of [0.5] [1730581234568%Z])) /\
  fst (generateParticipantId (fun _ : Q => "0.4fzyo82mvyr") (world_of [0.5] [1730581234567%Z]))
  <> fst (generateParticipantId (fun _ : Q => "0.4fzyo82mvyr")
            (world_of [0.5] [1730581234568%Z])) /\
  fst (generateSessionId (fun _ : Q => "0.4fzyo82mvyr") (world_of [0.5] [1730581234567%Z]))
  <> fst (generateSessionId (fun _ : Q => "0.4fzyo82mvyr") (world_of [0.5] [1730581234568%Z])).
Proof.
  refine (ids_of_different_times_differ (fun _ : Q => "0.4fzyo82mvyr")
            (world_of [0.5] [1730581234567%Z]) (world_of [0.5] [1730581234568%Z]) _).
  discriminate.
Defined.


End Instances.
